(** * apiEYE: the API discovery scanner of [api_scanner.py]

    A shallow embedding of the classifier [detect_api], the probe
    [scan_domain_path], the result store [save_results] and the scheduling
    loop of [main], with the properties of the specification stated and
    proved over it.

    Conventions of the model.
    - Python [str] values are [string]s: texts whose characters have code
      points below 256. On these [str.lower] maps the letters A-Z and the
      capital letters 192-222 (all but the sign 215) to their small letters,
      32 places up, and leaves every other character alone.
    - [requests]' header mapping is the [CaseInsensitiveDict] of the library:
      entries are kept under the lower-cased header name.
    - The outside world (network, clock, random generator, standard output)
      is a record of oracles that answer from the history of events so far;
      a run threads that history and may end in a raised exception. The
      standard output is asked for the one [print] that stands inside a
      [try], the notification of the probe; every other [print] is taken to
      succeed, and so is [time.sleep].
    - The file system is a finite map from paths to file contents; a file
      that is there can be read, and any path can be written to. *)

From Stdlib Require Import Ascii String QArith.
From stdpp Require Import gmap strings list pretty.

Local Open Scope string_scope.
Set Warnings "-register-all".

(** ** Python strings *)

Definition lower_char (c : ascii) : ascii :=
  let n := nat_of_ascii c in
  if ((65 <=? n)%nat && (n <=? 90)%nat)
     || ((192 <=? n)%nat && (n <=? 222)%nat && negb (n =? 215)%nat)
  then ascii_of_nat (n + 32) else c.

(** [s.lower()] *)
Fixpoint lower (s : string) : string :=
  match s with
  | EmptyString => EmptyString
  | String c s' => String (lower_char c) (lower s')
  end.

(** [sub in s]: [sub] occurs in [s] as a contiguous substring. *)
Fixpoint str_in (sub s : string) : bool :=
  String.prefix sub s ||
  match s with
  | EmptyString => false
  | String _ s' => str_in sub s'
  end.

(** [any(x in s for x in xs)] *)
Definition any_in (xs : list string) (s : string) : bool :=
  existsb (fun x => str_in x s) xs.

(** The double quote character, as a one-character string. *)
Definition DQ : string := String "034" EmptyString.

(** ** Header mappings *)

(** [requests.structures.CaseInsensitiveDict]: [_store] maps the lower-cased
    name to the pair of the name as it was given and the value. *)
Record CaseInsensitiveDict := { _store : gmap string (string * string) }.

(** [headers.get(key, default)] *)
Definition headers_get (headers : CaseInsensitiveDict) (key default : string) : string :=
  match _store headers !! lower key with
  | Some (_, v) => v
  | None => default
  end.

(** [key in headers] *)
Definition headers_contains (headers : CaseInsensitiveDict) (key : string) : bool :=
  bool_decide (is_Some (_store headers !! lower key)).

(** [headers[key] = value] *)
Definition headers_set (key value : string) (headers : CaseInsensitiveDict) : CaseInsensitiveDict :=
  {| _store := <[lower key := (key, value)]> (_store headers) |}.

Definition no_headers : CaseInsensitiveDict := {| _store := ∅ |}.

(** ** The classifier *)

Definition json_indicators : list string :=
  [ "{" +:+ DQ;
    DQ +:+ "data" +:+ DQ +:+ ":";
    DQ +:+ "api" +:+ DQ +:+ ":";
    DQ +:+ "response" +:+ DQ +:+ ":";
    DQ +:+ "result" +:+ DQ +:+ ":" ].

Definition doc_indicators : list string :=
  [ "swagger"; "openapi"; "api documentation"; "api docs"; "redoc" ].

Definition framework_indicators : list string :=
  [ "fastapi"; "django rest"; "express"; "flask-restful" ].

Definition api_servers : list string :=
  [ "fastapi"; "werkzeug"; "gunicorn" ].

(** The condition of the first test of [detect_api]: the lower-cased body
    names the vendor and carries one of the two challenge phrases. *)
Definition cloudflare_block (response_text : string) : bool :=
  let response_lower := lower response_text in
  str_in "cloudflare" response_lower &&
  (str_in "challenge" response_lower || str_in "attention required" response_lower).

Definition detect_api (response_text : string) (headers : CaseInsensitiveDict)
    (url : string) : bool * option string :=
  let response_lower := lower response_text in
  let content_type := lower (headers_get headers "content-type" "") in
  if str_in "cloudflare" response_lower &&
     (str_in "challenge" response_lower || str_in "attention required" response_lower)
  then (false, Some "Cloudflare Block")
  else if str_in "application/json" content_type
  then (true, Some "REST/JSON")
  else if any_in json_indicators response_lower
  then (true, Some "REST/JSON")
  else if str_in "graphql" response_lower
          || str_in (DQ +:+ "query" +:+ DQ) response_lower
          || str_in "graphiql" response_lower
  then (true, Some "GraphQL")
  else if str_in "xml" content_type
          || str_in "<?xml" response_text
          || str_in "soap:envelope" response_lower
  then (true, Some "SOAP/XML")
  else if any_in doc_indicators response_lower
  then (true, Some "API Documentation")
  else if any_in framework_indicators response_lower
  then (true, Some "API Framework")
  else
    let server := lower (headers_get headers "server" "") in
    if any_in api_servers server
    then (true, Some "API Server")
    else (false, None).

(** The labels that come with a positive verdict. *)
Definition api_labels : list string :=
  [ "REST/JSON"; "GraphQL"; "SOAP/XML"; "API Documentation";
    "API Framework"; "API Server" ].

(** ** The outside world *)

(** What [requests.get] hands back on success. *)
Record Response := {
  resp_text : string;
  resp_headers : CaseInsensitiveDict;
  resp_status_code : Z
}.

(** Exceptions. All but [KeyboardInterrupt] are subclasses of [Exception]:
    the three classes of [requests.exceptions] named by the probe,
    [OtherException] for any other subclass, and the three raised by the
    interpreter and the standard library in [main] and [save_results]. *)
Inductive Exn :=
| SSLError
| Timeout
| ConnectionError
| OtherException
| ValueError
| AttributeError
| ZeroDivisionError
| KeyboardInterrupt.

Definition is_Exception (e : Exn) : bool :=
  match e with
  | KeyboardInterrupt => false
  | _ => true
  end.

(** A call either returns or raises. *)
Inductive Result (A : Type) :=
| Returned (a : A)
| Raised (e : Exn).
Arguments Returned {A} a.
Arguments Raised {A} e.

(** The keyword arguments of [requests.get] that vary; [allow_redirects] and
    [verify] are always [True]. *)
Record Request := {
  req_url : string;
  req_timeout : Q;
  req_headers : list (string * string)
}.

Inductive Event :=
| Sleep (seconds : Q)
| Get (req : Request) (reply : Result Response)
| Print (line : string).

(** The oracles: each answers from the events that happened so far.
    [stdout] tells whether the standard output takes a line or the write
    raises (a closed pipe, a character the terminal cannot encode). *)
Record World := {
  network : list Event -> Request -> Result Response;
  clock : list Event -> string;
  dice : list Event -> nat;
  stdout : list Event -> string -> Result unit
}.

(** A run threads a state [S] (the history of events for the probe, the
    file system for the result store) and returns or raises. *)
Definition Run (S A : Type) : Type := S -> Result A * S.

Definition ret {S A} (a : A) : Run S A := fun s => (Returned a, s).

Definition raise {S A} (e : Exn) : Run S A := fun s => (Raised e, s).

Definition bind {S A B} (m : Run S A) (k : A -> Run S B) : Run S B :=
  fun s =>
    match m s with
    | (Returned a, s') => k a s'
    | (Raised e, s') => (Raised e, s')
    end.

Notation "'let*' x := m 'in' k" := (bind m (fun x => k))
  (at level 10, x name, m at level 100, k at level 200, only parsing).

(** The body of a [try]: its exception, if any, is handed to the handlers. *)
Definition try {S A} (m : Run S A) : Run S (Result A) :=
  fun s => let (r, s') := m s in (Returned r, s').

(** The history of events, oldest first. *)
Definition History : Type := list Event.

Definition emit (ev : Event) : Run History unit := fun h => (Returned tt, (h ++ [ev])%list).

(** [time.sleep(seconds)], for a number of seconds the call takes. *)
Definition time_sleep (seconds : Q) : Run History unit := emit (Sleep seconds).

(** [print(line)] outside any [try]. *)
Definition print (line : string) : Run History unit := emit (Print line).

(** [datetime.now().isoformat()] *)
Definition datetime_now_isoformat (w : World) : Run History string :=
  fun h => (Returned (clock w h), h).

(** [random.choice(xs)] for a non-empty [xs]. *)
Definition random_choice (w : World) (xs : list string) : Run History string :=
  fun h => (Returned (nth (dice w h mod length xs) xs ""), h).

Definition requests_get (w : World) (req : Request) : Run History Response :=
  fun h => let reply := network w h req in (reply, (h ++ [Get req reply])%list).

(** [print(line)] on the standard output of the world: the line is printed,
    or the write raises and nothing is printed. *)
Definition print_stdout (w : World) (line : string) : Run History unit :=
  fun h =>
    match stdout w h line with
    | Returned _ => (Returned tt, (h ++ [Print line])%list)
    | Raised e => (Raised e, h)
    end.

(** ** The probe *)

Definition ESC : string := String "027" EmptyString.
Definition GREEN : string := ESC +:+ "[92m".
Definition RESET : string := ESC +:+ "[0m".

Definition USER_AGENTS : list string :=
  [ "Mozilla/5.0 (Windows NT 10.0; Win64; x64) AppleWebKit/537.36 (KHTML, like Gecko) Chrome/120.0.0.0 Safari/537.36";
    "Mozilla/5.0 (Macintosh; Intel Mac OS X 10_15_7) AppleWebKit/537.36 (KHTML, like Gecko) Chrome/120.0.0.0 Safari/537.36";
    "Mozilla/5.0 (X11; Linux x86_64) AppleWebKit/537.36 (KHTML, like Gecko) Chrome/120.0.0.0 Safari/537.36";
    "Mozilla/5.0 (Windows NT 10.0; Win64; x64; rv:121.0) Gecko/20100101 Firefox/121.0";
    "Mozilla/5.0 (Macintosh; Intel Mac OS X 10_15_7) AppleWebKit/605.1.15 (KHTML, like Gecko) Version/17.1 Safari/605.1.15" ].

Definition get_random_headers (w : World) : Run History (list (string * string)) :=
  let* user_agent := random_choice w USER_AGENTS in
  ret [ ("User-Agent", user_agent);
        ("Accept", "text/html,application/xhtml+xml,application/xml;q=0.9,image/webp,*/*;q=0.8");
        ("Accept-Language", "en-US,en;q=0.5");
        ("Accept-Encoding", "gzip, deflate, br");
        ("DNT", "1");
        ("Connection", "keep-alive");
        ("Upgrade-Insecure-Requests", "1");
        ("Sec-Fetch-Dest", "document");
        ("Sec-Fetch-Mode", "navigate");
        ("Sec-Fetch-Site", "none");
        ("Cache-Control", "max-age=0") ].

(** The [result] dictionary of the probe. The last three keys are only set
    on a positive classification. *)
Record ProbeResult := {
  url : string;
  domain : string;
  path : string;
  scheme : string;
  is_api : bool;
  api_type : option string;
  timestamp : string;
  status_code : option Z;
  server : option string;
  cloudflare : option bool
}.

(** Assignments [result[key] = value]. *)
Definition set_is_api (v : bool) (r : ProbeResult) : ProbeResult :=
  {| url := url r; domain := domain r; path := path r; scheme := scheme r;
     is_api := v; api_type := api_type r; timestamp := timestamp r;
     status_code := status_code r; server := server r;
     cloudflare := cloudflare r |}.

Definition set_api_type (v : option string) (r : ProbeResult) : ProbeResult :=
  {| url := url r; domain := domain r; path := path r; scheme := scheme r;
     is_api := is_api r; api_type := v; timestamp := timestamp r;
     status_code := status_code r; server := server r;
     cloudflare := cloudflare r |}.

Definition set_status_code (v : Z) (r : ProbeResult) : ProbeResult :=
  {| url := url r; domain := domain r; path := path r; scheme := scheme r;
     is_api := is_api r; api_type := api_type r; timestamp := timestamp r;
     status_code := Some v; server := server r;
     cloudflare := cloudflare r |}.

Definition set_server (v : string) (r : ProbeResult) : ProbeResult :=
  {| url := url r; domain := domain r; path := path r; scheme := scheme r;
     is_api := is_api r; api_type := api_type r; timestamp := timestamp r;
     status_code := status_code r; server := Some v;
     cloudflare := cloudflare r |}.

Definition set_cloudflare (v : bool) (r : ProbeResult) : ProbeResult :=
  {| url := url r; domain := domain r; path := path r; scheme := scheme r;
     is_api := is_api r; api_type := api_type r; timestamp := timestamp r;
     status_code := status_code r; server := server r;
     cloudflare := Some v |}.

(** [str(x)] for a value that is a string or [None]. *)
Definition str_of_label (x : option string) : string :=
  match x with
  | Some s => s
  | None => "None"
  end.

(** The loop [for scheme in schemes] of [scan_domain_path], followed by the
    final [return None]. The body of the [try] holds the request, the
    classification and, for a positive one, the notification and the
    [return]: [Some result] stands for that [return], [None] for the end of
    the body. *)
Fixpoint scan_schemes (w : World) (domain path : string) (timeout : Q)
    (schemes : list string) : Run History (option ProbeResult) :=
  match schemes with
  | [] => ret None
  | scheme :: schemes' =>
      let url := scheme +:+ "://" +:+ domain +:+ path in
      let* now := datetime_now_isoformat w in
      let result :=
        {| url := url; domain := domain; path := path; scheme := scheme;
           is_api := false; api_type := None; timestamp := now;
           status_code := None; server := None; cloudflare := None |} in
      let* attempt :=
        try (let* headers := get_random_headers w in
             let* response :=
               requests_get w {| req_url := url; req_timeout := timeout;
                                 req_headers := headers |} in
             let '(is_api, api_type) :=
               detect_api (resp_text response) (resp_headers response) url in
             if is_api then
               let result := set_is_api true result in
               let result := set_api_type api_type result in
               let result := set_status_code (resp_status_code response) result in
               let result :=
                 set_server (headers_get (resp_headers response) "server" "Unknown")
                            result in
               let result :=
                 set_cloudflare (headers_contains (resp_headers response) "cf-ray")
                                result in
               let cloudflare_note :=
                 match cloudflare result with Some true => " [CF]" | _ => "" end in
               let* _ := print_stdout w (GREEN +:+ "[+] API Found: " +:+ url +:+ " - "
                                         +:+ str_of_label api_type +:+ cloudflare_note
                                         +:+ RESET) in
               ret (Some result)
             else ret None) in
      match attempt with
      | Returned (Some result) => ret (Some result)
      | Returned None => scan_schemes w domain path timeout schemes'
      | Raised SSLError => scan_schemes w domain path timeout schemes'
      | Raised Timeout => scan_schemes w domain path timeout schemes'
      | Raised ConnectionError => scan_schemes w domain path timeout schemes'
      | Raised e =>
          if is_Exception e then scan_schemes w domain path timeout schemes'
          else raise e
      end
  end.

Definition scan_domain_path (w : World) (domain path : string)
    (timeout delay : Q) : Run History (option ProbeResult) :=
  let* _ := (if Qlt_le_dec 0 delay then time_sleep delay else ret tt) in
  scan_schemes w domain path timeout ["https"; "http"].

(** ** The result store *)

(** JSON documents, as [json.load] returns them and [json.dump] takes them.
    Numbers are restricted to integers, the only ones the scanner writes. *)
Inductive Json :=
| JNull
| JBool (b : bool)
| JInt (n : Z)
| JString (s : string)
| JArray (items : list Json)
| JObject (members : list (string * Json)).

(** The [json] module: what [json.dump(v, f, indent=2)] writes, and what
    [json.load] reads, [None] standing for a raised exception. *)
Record JsonModule := {
  json_dump : Json -> string;
  json_load : string -> option Json
}.

(** The result dictionary as [json.dump] sees it, keys in insertion order. *)
Definition json_of_label (x : option string) : Json :=
  match x with
  | Some s => JString s
  | None => JNull
  end.

Definition json_of_result (r : ProbeResult) : Json :=
  JObject
    ([ ("url", JString (url r));
       ("domain", JString (domain r));
       ("path", JString (path r));
       ("scheme", JString (scheme r));
       ("is_api", JBool (is_api r));
       ("api_type", json_of_label (api_type r));
       ("timestamp", JString (timestamp r)) ]
     ++ match status_code r with Some n => [("status_code", JInt n)] | None => [] end
     ++ match server r with Some s => [("server", JString s)] | None => [] end
     ++ match cloudflare r with Some b => [("cloudflare", JBool b)] | None => [] end)%list.

(** Files by path, and the directories that exist. Opening a file for
    writing or appending always succeeds. *)
Record FileSystem := {
  files : gmap string string;
  dirs : gset string
}.

(** [os.makedirs(d, exist_ok=True)] *)
Definition os_makedirs (d : string) : Run FileSystem unit :=
  fun fs => (Returned tt, {| files := files fs; dirs := {[ d ]} ∪ dirs fs |}).

(** [with open(p, 'a') as f: f.write(text)] *)
Definition append_file (p text : string) : Run FileSystem unit :=
  fun fs =>
    (Returned tt,
     {| files := <[p := default "" (files fs !! p) +:+ text]> (files fs);
        dirs := dirs fs |}).

(** [with open(p, 'w') as f: f.write(text)] *)
Definition write_file (p text : string) : Run FileSystem unit :=
  fun fs => (Returned tt, {| files := <[p := text]> (files fs); dirs := dirs fs |}).

(** [os.path.exists(p)] together with the read of the file: [None] when the
    path does not exist. *)
Definition read_file (p : string) : Run FileSystem (option string) :=
  fun fs => (Returned (files fs !! p), fs).

(** [s.replace(old, new)] for a non-empty [old]: occurrences are replaced
    from the left and do not overlap. [skip] counts the characters of the
    occurrence being replaced that are still to be dropped. *)
Fixpoint replace_from (old new : string) (skip : nat) (s : string) : string :=
  match s with
  | EmptyString => EmptyString
  | String c s' =>
      match skip with
      | S k => replace_from old new k s'
      | O =>
          if String.prefix old s
          then new +:+ replace_from old new (String.length old - 1) s'
          else String c (replace_from old new 0 s')
      end
  end.

Definition str_replace (s old new : string) : string := replace_from old new 0 s.

Definition NL : string := String "010" EmptyString.

(** [result and result.get('is_api')] *)
Definition positive (result : option ProbeResult) : bool :=
  match result with
  | Some r => is_api r
  | None => false
  end.

(** The line of the text report for one result. *)
Definition report_line (r : ProbeResult) : string :=
  let cf := match cloudflare r with Some true => " (Cloudflare)" | _ => "" end in
  url r +:+ " | " +:+ str_of_label (api_type r) +:+ " | Status: "
  +:+ match status_code r with Some n => pretty n | None => "N/A" end
  +:+ cf +:+ NL.

Definition report_lines (results : list (option ProbeResult)) : string :=
  foldr (fun result acc =>
           match result with
           | Some r => if is_api r then report_line r +:+ acc else acc
           | None => acc
           end) "" results.

(** [[r for r in results if r and r.get('is_api')]] *)
Definition positives (results : list (option ProbeResult)) : list ProbeResult :=
  omap (fun result => if positive result then result else None) results.

(** [existing.extend(new)]: only a list has the method. *)
Definition extend (existing : Json) (new : list Json) : Run FileSystem Json :=
  match existing with
  | JArray items => ret (JArray (items ++ new)%list)
  | _ => raise AttributeError
  end.

Definition save_results (json : JsonModule) (results : list (option ProbeResult))
    (output_file : string) : Run FileSystem unit :=
  let* _ := os_makedirs "data" in
  let* _ := append_file output_file (report_lines results) in
  let json_file := str_replace output_file ".txt" ".json" in
  let* present := read_file json_file in
  let existing :=
    match present with
    | Some content =>
        match json_load json content with
        | Some v => v
        | None => JArray []
        end
    | None => JArray []
    end in
  let* existing := extend existing (map json_of_result (positives results)) in
  write_file json_file (json_dump json existing).

Definition default_output_file : string := "data/bugbounty_apis.txt".

(** ** The scheduler *)

(** [[(domain, path) for domain in domains for path in paths]] *)
Definition make_targets (domains paths : list string) : list (string * string) :=
  flat_map (fun domain => map (fun path => (domain, path)) paths) domains.

(** What the main thread does between the start of the scan and the end of
    the collecting loop. [completed_values] lists every value the counter
    [completed] has held, oldest first; [progress] the progress lines, as
    pairs of the count and the total they show. *)
Record ScanState := {
  results : list ProbeResult;
  completed : nat;
  completed_values : list nat;
  progress : list (nat * nat)
}.

Definition scan_start : ScanState :=
  {| results := []; completed := 0; completed_values := [0]; progress := [] |}.

(** The body of [for future in as_completed(future_to_target)], given what
    [future.result()] returned. *)
Definition collect (total : nat) (st : ScanState) (result : option ProbeResult) : ScanState :=
  let results :=
    match result with
    | Some r => (results st ++ [r])%list
    | None => results st
    end in
  let completed := completed st + 1 in
  {| results := results;
     completed := completed;
     completed_values := (completed_values st ++ [completed])%list;
     progress :=
       if (completed mod 10 =? 0)%nat
       then (progress st ++ [(completed, total)])%list
       else progress st |}.

(** The collecting loop over the futures in the order they complete;
    [future.result()] raises again what the probe raised. *)
Fixpoint as_completed_loop (total : nat) (futures : list (Result (option ProbeResult)))
    (st : ScanState) : Result ScanState :=
  match futures with
  | [] => Returned st
  | Returned result :: futures' => as_completed_loop total futures' (collect total st result)
  | Raised e :: futures' => Raised e
  end.

(** One future per target: the probe of target number [i] runs against the
    world [env i] that this worker sees. *)
Definition submit_all (env : nat -> World) (targets : list (string * string))
    (delay : Q) : list (Result (option ProbeResult)) :=
  imap (fun i '(domain, path) =>
          fst (scan_domain_path (env i) domain path 10 delay []))
       targets.

(** The scan of [main], from the computation of the targets to the end of
    the [with ThreadPoolExecutor] block. [order] lists the futures, by
    number, in the order [as_completed] yields them. With no thread the
    estimate of the time divides by zero; with a negative number of threads
    the pool refuses to start. *)
Definition run_scan (env : nat -> World) (order : list nat)
    (domains paths : list string) (threads : Z) (delay : Q) : Result ScanState :=
  let targets := make_targets domains paths in
  if (threads =? 0)%Z then Raised ZeroDivisionError
  else if (threads <? 0)%Z then Raised ValueError
  else
    let futures := submit_all env targets delay in
    as_completed_loop (length targets) (omap (fun i => futures !! i) order) scan_start.

(** ** A JSON printer and parser

    An instance of [JsonModule] to run [save_results] on concrete files:
    the layout of [json.dump(..., indent=2)], and a reader of that layout
    and of compact JSON. Characters are written as they are except for the
    double quote, the backslash and the newline, carriage return and tab, as
    [json.dump] writes the printable characters up to 126; numbers are
    integers. *)

Definition BS : string := String "092" EmptyString.

Definition escape_char (c : ascii) : string :=
  if (c =? "034")%char then BS +:+ DQ
  else if (c =? "092")%char then BS +:+ BS
  else if (c =? "010")%char then BS +:+ "n"
  else if (c =? "013")%char then BS +:+ "r"
  else if (c =? "009")%char then BS +:+ "t"
  else String c EmptyString.

Fixpoint escape (s : string) : string :=
  match s with
  | EmptyString => EmptyString
  | String c s' => escape_char c +:+ escape s'
  end.

Fixpoint indentation (level : nat) : string :=
  match level with
  | O => EmptyString
  | S level' => "  " +:+ indentation level'
  end.

Fixpoint dump_at (level : nat) (v : Json) : string :=
  match v with
  | JNull => "null"
  | JBool true => "true"
  | JBool false => "false"
  | JInt n => pretty n
  | JString s => DQ +:+ escape s +:+ DQ
  | JArray [] => "[]"
  | JArray items =>
      let fix go (items : list Json) : string :=
        match items with
        | [] => EmptyString
        | item :: items' =>
            indentation (S level) +:+ dump_at (S level) item
            +:+ match items' with
                | [] => EmptyString
                | _ => "," +:+ NL +:+ go items'
                end
        end in
      "[" +:+ NL +:+ go items +:+ NL +:+ indentation level +:+ "]"
  | JObject [] => "{}"
  | JObject members =>
      let fix go (members : list (string * Json)) : string :=
        match members with
        | [] => EmptyString
        | (key, item) :: members' =>
            indentation (S level) +:+ DQ +:+ escape key +:+ DQ +:+ ": "
            +:+ dump_at (S level) item
            +:+ match members' with
                | [] => EmptyString
                | _ => "," +:+ NL +:+ go members'
                end
        end in
      "{" +:+ NL +:+ go members +:+ NL +:+ indentation level +:+ "}"
  end.

Definition is_ws (c : ascii) : bool :=
  (c =? " ")%char || (c =? "010")%char || (c =? "013")%char || (c =? "009")%char.

Fixpoint skip_ws (s : string) : string :=
  match s with
  | EmptyString => EmptyString
  | String c s' => if is_ws c then skip_ws s' else s
  end.

Definition is_digit (c : ascii) : bool :=
  let n := nat_of_ascii c in (48 <=? n)%nat && (n <=? 57)%nat.

Fixpoint read_digits (acc : Z) (s : string) : Z * string :=
  match s with
  | EmptyString => (acc, s)
  | String c s' =>
      if is_digit c
      then read_digits (acc * 10 + (Z.of_nat (nat_of_ascii c) - 48))%Z s'
      else (acc, s)
  end.

(** A number without sign: a lone zero, or digits that start with 1-9. A
    fraction or an exponent is refused. *)
Definition read_natural (s : string) : option (Z * string) :=
  match s with
  | String c s' =>
      if negb (is_digit c) then None
      else
        let '(n, rest) := if (c =? "0")%char then (0%Z, s') else read_digits 0 s in
        match rest with
        | String d _ =>
            if (d =? ".")%char || (d =? "e")%char || (d =? "E")%char || is_digit d
            then None else Some (n, rest)
        | EmptyString => Some (n, rest)
        end
  | EmptyString => None
  end.

Definition unescape_char (c : ascii) : option ascii :=
  if (c =? "034")%char then Some "034"%char
  else if (c =? "092")%char then Some "092"%char
  else if (c =? "/")%char then Some "/"%char
  else if (c =? "n")%char then Some "010"%char
  else if (c =? "r")%char then Some "013"%char
  else if (c =? "t")%char then Some "009"%char
  else None.

(** The rest of a string literal, after its opening quote. *)
Fixpoint read_string (s : string) : option (string * string) :=
  match s with
  | EmptyString => None
  | String c s' =>
      if (c =? "034")%char then Some (EmptyString, s')
      else if (c =? "092")%char then
        match s' with
        | String e s'' =>
            match unescape_char e, read_string s'' with
            | Some c', Some (str, rest) => Some (String c' str, rest)
            | _, _ => None
            end
        | EmptyString => None
        end
      else if (nat_of_ascii c <? 32)%nat then None
      else
        match read_string s' with
        | Some (str, rest) => Some (String c str, rest)
        | None => None
        end
  end.

Fixpoint strip_prefix (p s : string) : option string :=
  match p, s with
  | EmptyString, _ => Some s
  | String a p', String b s' => if (a =? b)%char then strip_prefix p' s' else None
  | String _ _, EmptyString => None
  end.

Fixpoint parse_value (fuel : nat) (s : string) : option (Json * string) :=
  match fuel with
  | O => None
  | S fuel' =>
      match skip_ws s with
      | EmptyString => None
      | String c rest =>
          if (c =? "[")%char then
            match skip_ws rest with
            | String "]" rest' => Some (JArray [], rest')
            | _ =>
                match parse_items fuel' rest with
                | Some (items, rest') => Some (JArray items, rest')
                | None => None
                end
            end
          else if (c =? "{")%char then
            match skip_ws rest with
            | String "}" rest' => Some (JObject [], rest')
            | _ =>
                match parse_members fuel' rest with
                | Some (members, rest') => Some (JObject members, rest')
                | None => None
                end
            end
          else if (c =? "034")%char then
            match read_string rest with
            | Some (str, rest') => Some (JString str, rest')
            | None => None
            end
          else if (c =? "-")%char then
            match read_natural rest with
            | Some (n, rest') => Some (JInt (- n), rest')
            | None => None
            end
          else if is_digit c then
            match read_natural (String c rest) with
            | Some (n, rest') => Some (JInt n, rest')
            | None => None
            end
          else
            match strip_prefix "true" (String c rest),
                  strip_prefix "false" (String c rest),
                  strip_prefix "null" (String c rest) with
            | Some rest', _, _ => Some (JBool true, rest')
            | _, Some rest', _ => Some (JBool false, rest')
            | _, _, Some rest' => Some (JNull, rest')
            | _, _, _ => None
            end
      end
  end
with parse_items (fuel : nat) (s : string) : option (list Json * string) :=
  match fuel with
  | O => None
  | S fuel' =>
      match parse_value fuel' s with
      | Some (item, rest) =>
          match skip_ws rest with
          | String "," rest' =>
              match parse_items fuel' rest' with
              | Some (items, rest'') => Some (item :: items, rest'')
              | None => None
              end
          | String "]" rest' => Some ([item], rest')
          | _ => None
          end
      | None => None
      end
  end
with parse_members (fuel : nat) (s : string) : option (list (string * Json) * string) :=
  match fuel with
  | O => None
  | S fuel' =>
      match skip_ws s with
      | String "034" rest =>
          match read_string rest with
          | Some (key, rest1) =>
              match skip_ws rest1 with
              | String ":" rest2 =>
                  match parse_value fuel' rest2 with
                  | Some (item, rest3) =>
                      match skip_ws rest3 with
                      | String "," rest4 =>
                          match parse_members fuel' rest4 with
                          | Some (members, rest5) => Some ((key, item) :: members, rest5)
                          | None => None
                          end
                      | String "}" rest4 => Some ([(key, item)], rest4)
                      | _ => None
                      end
                  | None => None
                  end
              | _ => None
              end
          | None => None
          end
      | _ => None
      end
  end.

(** A whole document: one value, then nothing but white space. *)
Definition parse_document (s : string) : option Json :=
  match parse_value (2 * String.length s + 2) s with
  | Some (v, rest) =>
      match skip_ws rest with
      | EmptyString => Some v
      | String _ _ => None
      end
  | None => None
  end.

Definition reference_json : JsonModule :=
  {| json_dump := dump_at 0; json_load := parse_document |}.

(** ** Targets and paths *)

Definition generate_api_paths : list string :=
  [ "/"; "/api"; "/api/v1"; "/api/v2"; "/api/v3"; "/v1"; "/v2"; "/v3";
    "/rest"; "/rest/v1"; "/graphql"; "/api/graphql"; "/swagger";
    "/api/swagger"; "/swagger.json"; "/api/swagger.json"; "/openapi.json";
    "/api-docs"; "/docs"; "/api/docs"; "/redoc"; "/api/redoc"; "/health";
    "/api/health"; "/status"; "/api/status"; "/version"; "/api/version";
    "/users"; "/api/users"; "/auth"; "/api/auth"; "/login"; "/api/login" ].

(** [c.isspace()]: tab, line feed, vertical tab, form feed, carriage
    return, the four separators 28-31, the space, the next-line control 133
    and the no-break space 160. *)
Definition is_space (c : ascii) : bool :=
  let n := nat_of_ascii c in
  ((9 <=? n)%nat && (n <=? 13)%nat) || ((28 <=? n)%nat && (n <=? 32)%nat)
  || (n =? 133)%nat || (n =? 160)%nat.

(** [s.lstrip()] *)
Fixpoint lstrip (s : string) : string :=
  match s with
  | EmptyString => EmptyString
  | String c s' => if is_space c then lstrip s' else s
  end.

(** [s.rstrip()] *)
Fixpoint rstrip (s : string) : string :=
  match s with
  | EmptyString => EmptyString
  | String c s' =>
      match rstrip s' with
      | EmptyString => if is_space c then EmptyString else String c EmptyString
      | String _ _ as r => String c r
      end
  end.

(** [s.strip()] *)
Definition strip (s : string) : string := rstrip (lstrip s).

(** [s.startswith(p)] *)
Definition startswith (s p : string) : bool := String.prefix p s.

Definition CR : string := String "013" EmptyString.

(** The lines a text file yields when it is iterated over: each of the line
    ends [\n], [\r\n] and [\r] closes a line and is handed over as [\n]; a
    last line without line end is handed over as it is. *)
Fixpoint file_lines (content : string) : list string :=
  match content with
  | EmptyString => []
  | String c rest =>
      if (c =? "010")%char then NL :: file_lines rest
      else if (c =? "013")%char then
        match rest with
        | String d rest' =>
            if (d =? "010")%char then NL :: file_lines rest'
            else NL :: file_lines rest
        | EmptyString => [NL]
        end
      else
        match file_lines rest with
        | [] => [String c EmptyString]
        | line :: lines => String c line :: lines
        end
  end.

Definition RED : string := ESC +:+ "[91m".

(** [load_targets_from_file]: the file system is only read; the message for
    a missing file goes to the history. *)
Definition load_targets_from_file (fs : FileSystem) (filename : string)
    : Run History (list string) :=
  match files fs !! filename with
  | Some content =>
      ret (omap (fun line =>
                   if negb (String.eqb (strip line) "") && negb (startswith line "#")
                   then Some (strip line)
                   else None)
                (file_lines content))
  | None =>
      let* _ := print (RED +:+ "[!] File not found: " +:+ filename +:+ RESET) in
      ret []
  end.

(** [s.split(sep)] for a separator of one character. *)
Fixpoint str_split (s : string) (sep : ascii) : list string :=
  match s with
  | EmptyString => [EmptyString]
  | String c s' =>
      if (c =? sep)%char then EmptyString :: str_split s' sep
      else
        match str_split s' sep with
        | [] => [String c EmptyString]
        | part :: parts => String c part :: parts
        end
  end.

(** The cleaning of a domain typed in by hand, in [main]:
    [domain.replace('http://', '').replace('https://', '').split('/')[0]].
    The list of a split is never empty. *)
Definition clean_domain (domain : string) : string :=
  hd EmptyString
     (str_split (str_replace (str_replace domain "http://" "") "https://" "") "/").

(** The treatment of a custom path typed in by hand, in [main]. *)
Definition normalize_path (path : string) : string :=
  if negb (startswith path "/") then "/" +:+ path else path.

(** [custom_paths if custom_paths else generate_api_paths()] *)
Definition choose_paths (custom_paths : list string) : list string :=
  match custom_paths with
  | [] => generate_api_paths
  | _ :: _ => custom_paths
  end.

(** ** The end of [main] *)

(** What [main] does to the file system once the scan is over:
    [if results: save_results(results)]. *)
Definition save_found (json : JsonModule) (results : list ProbeResult)
    : Run FileSystem unit :=
  match results with
  | [] => ret tt
  | _ :: _ => save_results json (map Some results) default_output_file
  end.

(** The counts of the closing summary: targets scanned, APIs discovered,
    and [sum(1 for r in results if r.get('cloudflare'))]. *)
Definition cloudflare_count (results : list ProbeResult) : nat :=
  length (filter (fun r => cloudflare r = Some true) results).

Definition summary (targets : list (string * string)) (results : list ProbeResult)
    : nat * nat * nat :=
  (length targets, length results, cloudflare_count results).

(** ** Evidence of an API *)

(** The six tests of [detect_api] that answer [True], taken together. *)
Definition api_evidence (text : string) (headers : CaseInsensitiveDict) : bool :=
  str_in "application/json" (lower (headers_get headers "content-type" ""))
  || any_in json_indicators (lower text)
  || (str_in "graphql" (lower text)
      || str_in (DQ +:+ "query" +:+ DQ) (lower text)
      || str_in "graphiql" (lower text))
  || (str_in "xml" (lower (headers_get headers "content-type" ""))
      || str_in "<?xml" text
      || str_in "soap:envelope" (lower text))
  || any_in doc_indicators (lower text)
  || any_in framework_indicators (lower text)
  || any_in api_servers (lower (headers_get headers "server" "")).

(** ** What the probe shows *)

Definition is_print (ev : Event) : bool :=
  match ev with
  | Print _ => true
  | _ => false
  end.

(** The requests of a stretch of history, oldest first. *)
Definition requests (evs : list Event) : list Request :=
  omap (fun ev =>
          match ev with
          | Get req _ => Some req
          | _ => None
          end) evs.

(** The line the probe prints for the result it returns. *)
Definition notification (out : ProbeResult) : string :=
  GREEN +:+ "[+] API Found: " +:+ url out +:+ " - " +:+ str_of_label (api_type out)
  +:+ match cloudflare out with Some true => " [CF]" | _ => "" end
  +:+ RESET.

(** What every request of the probe looks like. *)
Definition browser_request (url : string) (timeout : Q) (req : Request) : Prop :=
  req_url req = url /\
  req_timeout req = timeout /\
  length (req_headers req) = 11 /\
  exists user_agent,
    user_agent ∈ USER_AGENTS /\
    req_headers req !! 0 = Some ("User-Agent", user_agent).


(** ** What the scan gathers *)

(** The result a future brings to the loop, if any. *)
Definition outcome (future : Result (option ProbeResult)) : option ProbeResult :=
  match future with
  | Returned (Some out) => Some out
  | _ => None
  end.

(** ** What the provisioning hands over *)

(** Neither a line feed nor a carriage return. *)
Definition not_line_end (c : ascii) : Prop := c <> "010"%char /\ c <> "013"%char.

(** A name as [load_targets_from_file] hands it over: not empty, with no
    white space at either end and no line end inside. *)
Definition clean_name (name : string) : Prop :=
  name <> EmptyString /\ strip name = name /\
  Forall not_line_end (list_ascii_of_string name).

(** ** Vocabulary of the statements *)

(** The requests of a stretch of history, each with its URL and its reply,
    oldest first. *)
Definition replies (evs : list Event) : list (string * Result Response) :=
  omap (fun ev =>
          match ev with
          | Get req reply => Some (req_url req, reply)
          | _ => None
          end) evs.

Definition is_sleep (ev : Event) : bool :=
  match ev with
  | Sleep _ => true
  | _ => false
  end.

(** The reply is a response that the classifier takes for an API. *)
Definition api_positive (url : string) (reply : Result Response) : bool :=
  match reply with
  | Returned response =>
      (detect_api (resp_text response) (resp_headers response) url).1
  | Raised _ => false
  end.

(** The reply is a miss: a response that is not taken for an API, or an
    exception of class [Exception]. *)
Definition miss (url : string) (reply : Result Response) : bool :=
  match reply with
  | Returned _ => negb (api_positive url reply)
  | Raised e => is_Exception e
  end.

(** The request the probe sends for [url] when the history is [h]. *)
Definition request_at (w : World) (h : History) (url : string) (timeout : Q) : Request :=
  {| req_url := url;
     req_timeout := timeout;
     req_headers :=
       match get_random_headers w h with
       | (Returned headers, _) => headers
       | (Raised _, _) => []
       end |}.

(** The result the probe hands back for a response taken for an API,
    received over [scheme] after the history [h] at which the turn began. *)
Definition found (w : World) (h : History) (domain path scheme : string)
    (response : Response) : ProbeResult :=
  let url := scheme +:+ "://" +:+ domain +:+ path in
  {| url := url; domain := domain; path := path; scheme := scheme;
     is_api := true;
     api_type := (detect_api (resp_text response) (resp_headers response) url).2;
     timestamp := clock w h;
     status_code := Some (resp_status_code response);
     server := Some (headers_get (resp_headers response) "server" "Unknown");
     cloudflare := Some (headers_contains (resp_headers response) "cf-ray") |}.

(** The events of the courtesy delay. *)
Definition delay_events (delay : Q) : list Event :=
  if Qlt_le_dec 0 delay then [Sleep delay] else [].

(** A world whose network and standard output only fail with exceptions
    of class [Exception]: no interrupt reaches the worker. *)
Definition no_interrupt (w : World) : Prop :=
  (forall h req e, network w h req = Raised e -> is_Exception e = true) /\
  (forall h line e, stdout w h line = Raised e -> is_Exception e = true).

(** How a turn of the loop over the schemes can end. *)
Inductive Turn :=
| Hit (out : ProbeResult)
| Pass
| Abort (e : Exn).

(** The turn of the loop for [scheme], begun at the history [h]: the reply
    of the network to its request and, for a positive reply, the fate of the
    notification decide how it ends. *)
Definition turn (w : World) (h : History) (domain path scheme : string)
    (timeout : Q) : Turn * History :=
  let url := scheme +:+ "://" +:+ domain +:+ path in
  let req := request_at w h url timeout in
  let reply := network w h req in
  let h1 := (h ++ [Get req reply])%list in
  match reply with
  | Returned response =>
      if api_positive url reply then
        let out := found w h domain path scheme response in
        match stdout w h1 (notification out) with
        | Returned _ => (Hit out, (h1 ++ [Print (notification out)])%list)
        | Raised e => if is_Exception e then (Pass, h1) else (Abort e, h1)
        end
      else (Pass, h1)
  | Raised e => if is_Exception e then (Pass, h1) else (Abort e, h1)
  end.

(** ** Concrete inputs *)

Definition challenge_page : string :=
  "<title>Attention Required! | Cloudflare</title>".

Definition json_headers : CaseInsensitiveDict :=
  headers_set "Content-Type" "application/json" no_headers.

(** A challenge page that also carries JSON and GraphQL markers. *)
Definition challenge_with_markers : string :=
  challenge_page +:+ "{" +:+ DQ +:+ "data" +:+ DQ +:+ ": " +:+ DQ +:+ "graphql" +:+ DQ +:+ "}".

(** [{"query": "graphiql"}] *)
Definition graphiql_json_body : string :=
  "{" +:+ DQ +:+ "query" +:+ DQ +:+ ": " +:+ DQ +:+ "graphiql" +:+ DQ +:+ "}".

(** [<a href="query">GraphiQL</a>] *)
Definition graphiql_page : string :=
  "<a href=" +:+ DQ +:+ "query" +:+ DQ +:+ ">GraphiQL</a>".

(** [{"status":"up"}] *)
Definition status_body : string :=
  "{" +:+ DQ +:+ "status" +:+ DQ +:+ ":" +:+ DQ +:+ "up" +:+ DQ +:+ "}".

Definition fixed_clock (h : list Event) : string := "2024-01-01T00:00:00".

(** Every request is answered with a JSON document behind the CDN. *)
Definition json_world : World :=
  {| network := fun _ _ =>
       Returned {| resp_text := status_body;
                   resp_headers := headers_set "CF-RAY" "8a1b2c3d4e5f" json_headers;
                   resp_status_code := 200 |};
     clock := fixed_clock;
     dice := fun h => length h;
     stdout := fun _ _ => Returned tt |}.

(** The TLS handshake fails, and the plain request times out. *)
Definition dead_world : World :=
  {| network := fun _ req =>
       if String.prefix "https://" (req_url req) then Raised SSLError
       else Raised Timeout;
     clock := fixed_clock;
     dice := fun h => length h;
     stdout := fun _ _ => Returned tt |}.

(** The TLS handshake fails, and the plain request meets a challenge page. *)
Definition blocked_world : World :=
  {| network := fun _ req =>
       if String.prefix "https://" (req_url req) then Raised SSLError
       else Returned {| resp_text := challenge_page;
                        resp_headers := no_headers;
                        resp_status_code := 403 |};
     clock := fixed_clock;
     dice := fun h => length h;
     stdout := fun _ _ => Returned tt |}.

(** Every request is answered with a JSON document, but the standard
    output is a closed pipe. *)
Definition mute_world : World :=
  {| network := network json_world;
     clock := fixed_clock;
     dice := fun h => length h;
     stdout := fun _ _ => Raised OtherException |}.

Definition example_result : ProbeResult :=
  {| url := "https://example.com/api"; domain := "example.com"; path := "/api";
     scheme := "https"; is_api := true; api_type := Some "REST/JSON";
     timestamp := "2024-01-01T00:00:00"; status_code := Some 200%Z;
     server := Some "Unknown"; cloudflare := Some true |}.

Definition empty_disk : FileSystem := {| files := ∅; dirs := ∅ |}.

(** A disk whose structured file holds a truncated document. *)
Definition damaged_disk : FileSystem :=
  {| files := {[ "data/bugbounty_apis.json" := "[{" ]}; dirs := {[ "data" ]} |}.

(** The workers with an even number reach the JSON service, the others
    reach nothing. *)
Definition mixed_env (i : nat) : World :=
  if Nat.even i then json_world else dead_world.

(** A target file with a comment, a blank line, an indented comment and a
    name followed by spaces, with mixed line ends. *)
Definition targets_file : string :=
  "# targets" +:+ NL +:+ "api.example.com  " +:+ CR +:+ NL +:+ NL
  +:+ "  # staging" +:+ CR +:+ "example.org".

Definition targets_disk : FileSystem :=
  {| files := {[ "domains.txt" := targets_file ]}; dirs := ∅ |}.

(** A disk whose structured file holds an object, not an array. *)
Definition object_disk : FileSystem :=
  {| files := {[ "data/bugbounty_apis.json" := "{" +:+ DQ +:+ "a" +:+ DQ +:+ ": 1}" ]};
     dirs := {[ "data" ]} |}.

(** A disk whose structured file holds an array of two numbers. *)
Definition array_disk : FileSystem :=
  {| files := {[ "data/bugbounty_apis.json" := "[1, 2]" ]}; dirs := {[ "data" ]} |}.


(** * Properties *)

(** ** The classifier *)

Example detect_api_json :
  detect_api ("{" +:+ DQ +:+ "result" +:+ DQ +:+ ": " +:+ DQ +:+ "ok" +:+ DQ +:+ "}")
             json_headers "https://example.com/api"
  = (true, Some "REST/JSON").
Proof. vm_compute. reflexivity. Qed.

(** The verdicts of [detect_api], test by test. *)
Lemma detect_api_cases text headers url :
  let r := detect_api text headers url in
  (cloudflare_block text = true /\ r = (false, Some "Cloudflare Block")) \/
  (cloudflare_block text = false /\
     ((exists label, label ∈ api_labels /\ r = (true, Some label)) \/ r = (false, None))).
Proof.
  unfold detect_api, cloudflare_block, api_labels. cbv zeta.
  destruct (str_in "cloudflare" (lower text) && _) eqn:Hblock.
  { left. split; reflexivity. }
  right. split; [reflexivity |].
  repeat match goal with
         | |- context [if ?c then _ else _] => destruct c
         end;
    first [ right; reflexivity
          | left; eexists; split; [| reflexivity]; set_solver ].
Qed.

(** C1, counterexample: on a challenge page the classifier answers
    [isAPI = false] together with the label ["Cloudflare Block"], so "the
    label is present if and only if [isAPI] is true" fails there. *)
Lemma detect_api_block_has_label :
  let r := detect_api challenge_page no_headers "https://example.com/api" in
  r = (false, Some "Cloudflare Block") /\ ~ (is_Some r.2 <-> r.1 = true).
Proof.
  assert (Hr : detect_api challenge_page no_headers "https://example.com/api"
               = (false, Some "Cloudflare Block")) by (vm_compute; reflexivity).
  cbv zeta. rewrite Hr. split; [reflexivity |].
  intros [Hlabel _]. simpl in Hlabel.
  specialize (Hlabel (ex_intro _ _ eq_refl)). discriminate.
Qed.

(** C1, amended: the classifier answers either [isAPI = true] with one of
    the six protocol-style labels, or [isAPI = false]; with [isAPI = false]
    the label is absent, except on a challenge page, where it is
    ["Cloudflare Block"]. *)
Theorem detect_api_label_or_block text headers url :
  let r := detect_api text headers url in
  (r.1 = true /\ exists label, label ∈ api_labels /\ r.2 = Some label) \/
  (r.1 = false /\
   r.2 = if cloudflare_block text then Some "Cloudflare Block" else None).
Proof.
  cbv zeta.
  destruct (detect_api_cases text headers url)
    as [[Hb ->] | [Hb [(label & Hin & ->) | ->]]]; rewrite Hb; simpl.
  - right. split; reflexivity.
  - left. split; [reflexivity |]. exists label. split; [assumption | reflexivity].
  - right. split; reflexivity.
Qed.

(** C2: a body that names the vendor and carries a challenge phrase is
    answered with [isAPI = false], whatever else the body and the headers
    hold. *)
Theorem detect_api_challenge_first text headers url :
  str_in "cloudflare" (lower text) = true ->
  str_in "challenge" (lower text) = true \/
    str_in "attention required" (lower text) = true ->
  (detect_api text headers url).1 = false.
Proof.
  intros Hvendor Hphrase.
  assert (Hb : cloudflare_block text = true).
  { unfold cloudflare_block. cbv zeta. rewrite Hvendor. simpl.
    destruct Hphrase as [-> | ->]; [reflexivity | apply orb_true_r]. }
  destruct (detect_api_cases text headers url) as [[_ ->] | [Hb' _]].
  - reflexivity.
  - congruence.
Qed.

Lemma detect_api_challenge_first_witness :
  str_in "application/json" (lower (headers_get json_headers "content-type" "")) = true /\
  any_in json_indicators (lower challenge_with_markers) = true /\
  str_in "graphql" (lower challenge_with_markers) = true /\
  (detect_api challenge_with_markers json_headers "https://example.com/graphql").1 = false.
Proof.
  split; [vm_compute; reflexivity |].
  split; [vm_compute; reflexivity |].
  split; [vm_compute; reflexivity |].
  apply detect_api_challenge_first.
  - vm_compute; reflexivity.
  - right. vm_compute; reflexivity.
Defined.

(** C5, counterexample: a JSON-typed challenge page that mentions graphql
    is not answered [(true, REST/JSON)], and a body with a ["query"] key and
    the word graphiql, sent without a JSON content type, is answered
    [(true, REST/JSON)] as soon as it opens like a JSON object. *)
Lemma detect_api_graphql_precedence_fails :
  (str_in "application/json" (lower (headers_get json_headers "content-type" "")) = true /\
   str_in "graphql" (lower challenge_with_markers) = true /\
   detect_api challenge_with_markers json_headers "https://example.com/graphql"
   = (false, Some "Cloudflare Block")) /\
  (str_in "application/json" (lower (headers_get no_headers "content-type" "")) = false /\
   str_in (DQ +:+ "query" +:+ DQ) (lower graphiql_json_body) = true /\
   str_in "graphiql" (lower graphiql_json_body) = true /\
   detect_api graphiql_json_body no_headers "https://example.com/graphql"
   = (true, Some "REST/JSON")).
Proof. vm_compute. repeat split; reflexivity. Qed.

(** C5, amended: off the challenge pages, a response whose content type
    indicates JSON and whose body mentions graphql is answered
    [(true, REST/JSON)]; and a response without a JSON content type, whose
    body holds none of the JSON tokens, contains ["query"] and mentions
    graphiql, is answered [(true, GraphQL)]. *)
Theorem detect_api_json_before_graphql text headers url :
  cloudflare_block text = false ->
  (str_in "application/json" (lower (headers_get headers "content-type" "")) = true ->
   str_in "graphql" (lower text) = true ->
   detect_api text headers url = (true, Some "REST/JSON")) /\
  (str_in "application/json" (lower (headers_get headers "content-type" "")) = false ->
   any_in json_indicators (lower text) = false ->
   str_in (DQ +:+ "query" +:+ DQ) (lower text) = true ->
   str_in "graphiql" (lower text) = true ->
   detect_api text headers url = (true, Some "GraphQL")).
Proof.
  unfold cloudflare_block, detect_api. cbv zeta. intros ->. split.
  - intros -> _. reflexivity.
  - intros -> -> -> _. rewrite orb_true_r. reflexivity.
Qed.

Lemma detect_api_json_before_graphql_witness :
  detect_api ("{" +:+ DQ +:+ "errors" +:+ DQ +:+ ": " +:+ DQ +:+ "GraphQL" +:+ DQ +:+ "}")
             json_headers "https://example.com/graphql"
  = (true, Some "REST/JSON") /\
  detect_api graphiql_page no_headers "https://example.com/graphiql"
  = (true, Some "GraphQL").
Proof.
  split.
  - apply detect_api_json_before_graphql; vm_compute; reflexivity.
  - apply detect_api_json_before_graphql; vm_compute; reflexivity.
Defined.

(** ** The probe *)

Lemma get_random_headers_returns w h :
  exists headers, get_random_headers w h = (Returned headers, h).
Proof. eexists. reflexivity. Qed.

Ltac run_step :=
  unfold bind, try, datetime_now_isoformat, requests_get, print_stdout, print,
    time_sleep, emit, ret, raise.

(** One turn of the loop over the schemes, as [turn] tells it: a hit ends
    the probe with its result, a pass hands over to the next scheme, and an
    exception outside [Exception] leaves the probe. *)
Lemma scan_schemes_turn w domain path timeout scheme rest h :
  scan_schemes w domain path timeout (scheme :: rest) h
  = match turn w h domain path scheme timeout with
    | (Hit out, h') => (Returned (Some out), h')
    | (Pass, h') => scan_schemes w domain path timeout rest h'
    | (Abort e, h') => (Raised e, h')
    end.
Proof.
  unfold turn, request_at, api_positive. cbv zeta.
  destruct (get_random_headers_returns w h) as [headers Hheaders].
  cbn [scan_schemes]. run_step. rewrite Hheaders.
  set (url := scheme +:+ "://" +:+ domain +:+ path).
  set (req := {| req_url := url; req_timeout := timeout; req_headers := headers |}).
  destruct (network w h req) as [response | e] eqn:Hreply.
  - set (out := found w h domain path scheme response).
    destruct (detect_api (resp_text response) (resp_headers response) url)
      as [[|] label] eqn:Hverdict; cbn [fst snd] in *; [| reflexivity].
    assert (Hout : out = set_api_type label out).
    { unfold out, found. cbv zeta. fold url. rewrite Hverdict. reflexivity. }
    match goal with
    | |- context [stdout w ?h1 (GREEN +:+ ?rest)] =>
        assert (Hline : notification out = GREEN +:+ rest)
          by (rewrite Hout; reflexivity);
        rewrite Hline; destruct (stdout w h1 (GREEN +:+ rest)) as [[] | e]
    end.
    + rewrite Hout. reflexivity.
    + destruct e; reflexivity.
  - destruct e; reflexivity.
Qed.

Lemma scan_domain_path_unfold w domain path timeout delay h :
  scan_domain_path w domain path timeout delay h
  = scan_schemes w domain path timeout ["https"; "http"] (h ++ delay_events delay)%list.
Proof.
  unfold scan_domain_path, delay_events. run_step.
  destruct (Qlt_le_dec 0 delay); [reflexivity | rewrite app_nil_r; reflexivity].
Qed.

(** The whole probe, turn by turn. *)
Lemma scan_domain_path_turns w domain path timeout delay h :
  scan_domain_path w domain path timeout delay h
  = match turn w (h ++ delay_events delay)%list domain path "https" timeout with
    | (Hit out, h2) => (Returned (Some out), h2)
    | (Abort e, h2) => (Raised e, h2)
    | (Pass, h2) =>
        match turn w h2 domain path "http" timeout with
        | (Hit out, h3) => (Returned (Some out), h3)
        | (Abort e, h3) => (Raised e, h3)
        | (Pass, h3) => (Returned None, h3)
        end
    end.
Proof.
  rewrite scan_domain_path_unfold, scan_schemes_turn.
  destruct (turn w (h ++ delay_events delay)%list domain path "https" timeout)
    as [[out | | e] h2]; try reflexivity.
  rewrite scan_schemes_turn.
  destruct (turn w h2 domain path "http" timeout) as [[out | | e] h3]; reflexivity.
Qed.

(** What a turn adds to the history, and what it stands on: the request of
    the scheme and the reply of the network to it, then the notification of
    the result if the turn is a hit. *)
Lemma turn_spec w h domain path scheme timeout :
  let url := scheme +:+ "://" +:+ domain +:+ path in
  let req := request_at w h url timeout in
  let reply := network w h req in
  let h1 := (h ++ [Get req reply])%list in
  (exists response,
      reply = Returned response /\ api_positive url reply = true /\
      stdout w h1 (notification (found w h domain path scheme response)) = Returned tt /\
      turn w h domain path scheme timeout
      = (Hit (found w h domain path scheme response),
         (h1 ++ [Print (notification (found w h domain path scheme response))])%list)) \/
  (turn w h domain path scheme timeout = (Pass, h1) /\
   (miss url reply = true \/
    exists response e,
      reply = Returned response /\ api_positive url reply = true /\
      stdout w h1 (notification (found w h domain path scheme response)) = Raised e /\
      is_Exception e = true)) \/
  (exists e,
      turn w h domain path scheme timeout = (Abort e, h1) /\
      is_Exception e = false /\
      (reply = Raised e \/
       exists response,
         reply = Returned response /\ api_positive url reply = true /\
         stdout w h1 (notification (found w h domain path scheme response)) = Raised e)).
Proof.
  cbv zeta. unfold turn. cbv zeta.
  set (url := scheme +:+ "://" +:+ domain +:+ path).
  set (req := request_at w h url timeout).
  destruct (network w h req) as [response | e] eqn:Hreply.
  - destruct (api_positive url (Returned response)) eqn:Hpos.
    + destruct (stdout w _ _) as [[] | e] eqn:Hout.
      * left. exists response. auto.
      * destruct (is_Exception e) eqn:He.
        -- right. left. split; [reflexivity |]. right. exists response, e. auto.
        -- right. right. exists e. split; [reflexivity |]. split; [exact He |].
           right. exists response. auto.
    + right. left. split; [reflexivity |]. left. unfold miss. rewrite Hpos. reflexivity.
  - destruct (is_Exception e) eqn:He.
    + right. left. split; [reflexivity |]. left. exact He.
    + right. right. exists e. auto.
Qed.

Lemma replies_app evs1 evs2 : replies (evs1 ++ evs2) = (replies evs1 ++ replies evs2)%list.
Proof. unfold replies. apply omap_app. Qed.

Lemma replies_delay delay : replies (delay_events delay) = [].
Proof. unfold delay_events. destruct (Qlt_le_dec 0 delay); reflexivity. Qed.

Lemma requests_app evs1 evs2 :
  requests (evs1 ++ evs2) = (requests evs1 ++ requests evs2)%list.
Proof. unfold requests. apply omap_app. Qed.

Lemma requests_delay delay : requests (delay_events delay) = [].
Proof. unfold delay_events. destruct (Qlt_le_dec 0 delay); reflexivity. Qed.



(** A miss makes the turn a pass, whatever the standard output does. *)
Lemma turn_miss w h domain path scheme timeout :
  let url := scheme +:+ "://" +:+ domain +:+ path in
  let req := request_at w h url timeout in
  let reply := network w h req in
  miss url reply = true ->
  turn w h domain path scheme timeout = (Pass, (h ++ [Get req reply])%list).
Proof.
  cbv zeta. unfold turn. cbv zeta.
  destruct (network w h _) as [response | e]; cbn [miss]; intros Hmiss.
  - apply negb_true_iff in Hmiss. rewrite Hmiss. reflexivity.
  - rewrite Hmiss. reflexivity.
Qed.



(** The whole probe, attempt by attempt. *)
Lemma scan_domain_path_runs w domain path timeout delay h :
  let https := "https" +:+ "://" +:+ domain +:+ path in
  let http := "http" +:+ "://" +:+ domain +:+ path in
  let h1 := (h ++ delay_events delay)%list in
  let req1 := request_at w h1 https timeout in
  let a1 := network w h1 req1 in
  let h2 := (h1 ++ [Get req1 a1])%list in
  let req2 := request_at w h2 http timeout in
  let a2 := network w h2 req2 in
  let h3 := (h2 ++ [Get req2 a2])%list in
  let run := scan_domain_path w domain path timeout delay h in
  (exists response,
      a1 = Returned response /\ api_positive https a1 = true /\
      run = (Returned (Some (found w h1 domain path "https" response)),
             (h2 ++ [Print (notification (found w h1 domain path "https" response))])%list)) \/
  (exists e, is_Exception e = false /\ run = (Raised e, h2)) \/
  (turn w h1 domain path "https" timeout = (Pass, h2) /\
   ((exists response,
        a2 = Returned response /\ api_positive http a2 = true /\
        run = (Returned (Some (found w h2 domain path "http" response)),
               (h3 ++ [Print (notification (found w h2 domain path "http" response))])%list)) \/
    (exists e, is_Exception e = false /\ run = (Raised e, h3)) \/
    (turn w h2 domain path "http" timeout = (Pass, h3) /\ run = (Returned None, h3)))).
Proof.
  cbv zeta. rewrite scan_domain_path_turns.
  set (h1 := (h ++ delay_events delay)%list).
  pose proof (turn_spec w h1 domain path "https" timeout) as Hturn1. cbv zeta in Hturn1.
  set (req1 := request_at w h1 _ timeout) in *.
  set (a1 := network w h1 req1) in *.
  set (h2 := (h1 ++ [Get req1 a1])%list) in *.
  destruct Hturn1 as [(response & Ha1 & Hpos & _ & ->)
                     | [[Hpass1 _] | (e & -> & He & _)]].
  - left. exists response. auto.
  - right. right. split; [exact Hpass1 |]. rewrite Hpass1.
    pose proof (turn_spec w h2 domain path "http" timeout) as Hturn2.
    cbv zeta in Hturn2.
    set (req2 := request_at w h2 _ timeout) in *.
    set (a2 := network w h2 req2) in *.
    destruct Hturn2 as [(response & Ha2 & Hpos & _ & ->)
                       | [[Hpass2 _] | (e & -> & He & _)]].
    + left. exists response. auto.
    + right. right. split; [exact Hpass2 |]. rewrite Hpass2. reflexivity.
    + right. left. exists e. auto.
  - right. left. exists e. auto.
Qed.

(** After a miss the loop goes on with the schemes that are left. *)
Lemma scan_schemes_miss w domain path timeout scheme rest h :
  let url := scheme +:+ "://" +:+ domain +:+ path in
  let req := request_at w h url timeout in
  let reply := network w h req in
  miss url reply = true ->
  scan_schemes w domain path timeout (scheme :: rest) h
  = scan_schemes w domain path timeout rest (h ++ [Get req reply])%list.
Proof.
  cbv zeta. intros Hmiss.
  rewrite scan_schemes_turn, (turn_miss w h domain path scheme timeout Hmiss).
  reflexivity.
Qed.
(** C4: an attempt that raises an exception of class [Exception] (a TLS
    failure, a timeout, a connection failure or any other) is recorded and
    the loop goes on with the next scheme; and when both attempts raise such
    an exception the probe returns [None], having asked over HTTPS and then
    over HTTP. *)
Theorem scan_domain_path_absorbs_failures w domain path timeout :
  (forall scheme rest h e,
      let req := request_at w h (scheme +:+ "://" +:+ domain +:+ path) timeout in
      network w h req = Raised e ->
      is_Exception e = true ->
      scan_schemes w domain path timeout (scheme :: rest) h
      = scan_schemes w domain path timeout rest (h ++ [Get req (Raised e)])%list) /\
  (forall delay h e1 e2,
      let h1 := (h ++ delay_events delay)%list in
      let req1 := request_at w h1 ("https://" +:+ domain +:+ path) timeout in
      let h2 := (h1 ++ [Get req1 (Raised e1)])%list in
      let req2 := request_at w h2 ("http://" +:+ domain +:+ path) timeout in
      network w h1 req1 = Raised e1 -> is_Exception e1 = true ->
      network w h2 req2 = Raised e2 -> is_Exception e2 = true ->
      scan_domain_path w domain path timeout delay h
      = (Returned None, (h2 ++ [Get req2 (Raised e2)])%list)).
Proof.
  split.
  - intros scheme rest h e req Hreply He.
    pose proof (scan_schemes_miss w domain path timeout scheme rest h) as Hstep.
    cbv zeta in Hstep. fold req in Hstep. rewrite Hreply in Hstep.
    apply Hstep. exact He.
  - intros delay h e1 e2 h1 req1 h2 req2 Ha1 He1 Ha2 He2.
    rewrite scan_domain_path_unfold. fold h1.
    pose proof (scan_schemes_miss w domain path timeout "https" ["http"] h1) as Hstep1.
    cbv zeta in Hstep1.
    change (request_at w h1 ("https" +:+ "://" +:+ domain +:+ path) timeout)
      with req1 in Hstep1.
    rewrite Ha1 in Hstep1.
    rewrite (Hstep1 He1). fold h2.
    pose proof (scan_schemes_miss w domain path timeout "http" [] h2) as Hstep2.
    cbv zeta in Hstep2.
    change (request_at w h2 ("http" +:+ "://" +:+ domain +:+ path) timeout)
      with req2 in Hstep2.
    rewrite Ha2 in Hstep2.
    rewrite (Hstep2 He2). reflexivity.
Qed.

Lemma scan_domain_path_absorbs_failures_witness :
  scan_schemes dead_world "example.com" "/api" 10 ["https"; "http"] []
  = scan_schemes dead_world "example.com" "/api" 10 ["http"]
      [Get (request_at dead_world [] "https://example.com/api" 10) (Raised SSLError)] /\
  (scan_domain_path dead_world "example.com" "/api" 10 0 []).1 = Returned None /\
  replies (scan_domain_path dead_world "example.com" "/api" 10 0 []).2
  = [("https://example.com/api", Raised SSLError);
     ("http://example.com/api", Raised Timeout)].
Proof.
  pose proof (scan_domain_path_absorbs_failures dead_world "example.com" "/api" 10)
    as [Hnext Hnone].
  split; [| split].
  - apply (Hnext "https" ["http"] [] SSLError); reflexivity.
  - rewrite (Hnone 0%Q [] SSLError Timeout); reflexivity.
  - rewrite (Hnone 0%Q [] SSLError Timeout); reflexivity.
Defined.

(** C9: with a positive delay the probe sleeps for that long first, and
    nothing after that sleep is a sleep, however many requests follow. *)
Theorem scan_domain_path_sleeps_once w domain path timeout delay h :
  (0 < delay)%Q ->
  exists evs,
    (scan_domain_path w domain path timeout delay h).2 = (h ++ Sleep delay :: evs)%list /\
    Forall (fun ev => is_sleep ev = false) evs /\
    replies evs <> [].
Proof.
  intros Hdelay.
  pose proof (scan_domain_path_runs w domain path timeout delay h) as Hrun.
  cbv zeta in Hrun.
  assert (Hevents : delay_events delay = [Sleep delay]).
  { unfold delay_events. destruct (Qlt_le_dec 0 delay) as [_ | Hle]; [reflexivity |].
    exfalso. exact (Qlt_not_le _ _ Hdelay Hle). }
  rewrite Hevents in Hrun.
  set (h1 := (h ++ [Sleep delay])%list) in *.
  set (req1 := request_at w h1 _ timeout) in *.
  set (a1 := network w h1 req1) in *.
  set (h2 := (h1 ++ [Get req1 a1])%list) in *.
  set (req2 := request_at w h2 _ timeout) in *.
  set (a2 := network w h2 req2) in *.
  destruct Hrun
    as [(response & _ & _ & ->)
       | [(e & _ & ->)
         | [_ [(response & _ & _ & ->)
              | [(e & _ & ->) | [_ ->]]]]]];
    cbn [fst snd]; subst h2 h1; rewrite <- !app_assoc; cbn [app];
    eexists; (split; [reflexivity |]);
    (split; [repeat constructor | discriminate]).
Qed.

Lemma scan_domain_path_sleeps_once_witness :
  (0 < 1 # 2)%Q /\
  exists evs,
    (scan_domain_path dead_world "example.com" "/api" 10 (1 # 2) []).2
    = ([] ++ Sleep (1 # 2) :: evs)%list /\
    Forall (fun ev => is_sleep ev = false) evs /\
    replies evs <> [].
Proof.
  split; [reflexivity |].
  apply scan_domain_path_sleeps_once. reflexivity.
Defined.

(** What the probe returns, when it returns a result: the result built from
    the response to the last request. *)
Lemma scan_domain_path_found w domain path timeout delay h out h' :
  scan_domain_path w domain path timeout delay h = (Returned (Some out), h') ->
  exists evs hreq req response line,
    h' = (h ++ evs ++ [Get req (Returned response); Print line])%list /\
    req_url req = url out /\
    api_positive (url out) (Returned response) = true /\
    out = found w hreq domain path (scheme out) response.
Proof.
  intros Heq.
  pose proof (scan_domain_path_runs w domain path timeout delay h) as Hrun.
  cbv zeta in Hrun. rewrite Heq in Hrun.
  set (h1 := (h ++ delay_events delay)%list) in *.
  set (req1 := request_at w h1 _ timeout) in *.
  set (a1 := network w h1 req1) in *.
  set (h2 := (h1 ++ [Get req1 a1])%list) in *.
  set (req2 := request_at w h2 _ timeout) in *.
  set (a2 := network w h2 req2) in *.
  destruct Hrun
    as [(response & Ha1 & Hpos & Hout)
       | [(e & _ & Hout)
         | [_ [(response & Ha2 & Hpos & Hout)
              | [(e & _ & Hout) | [_ Hout]]]]]];
    try discriminate; injection Hout as -> ->.
  - exists (delay_events delay), h1, req1, response. eexists.
    subst h2 h1. rewrite <- !app_assoc. cbn [app].
    rewrite <- Ha1. repeat split. exact Hpos.
  - exists (delay_events delay ++ [Get req1 a1])%list, h2, req2, response. eexists.
    subst h2 h1. rewrite <- !app_assoc. cbn [app].
    rewrite <- Ha2. repeat split. exact Hpos.
Qed.

(** ** The scheduler *)

Lemma make_targets_list_prod domains paths :
  make_targets domains paths = list_prod domains paths.
Proof. unfold make_targets. symmetry. apply list_prod_as_flat_map. Qed.

(** Without interrupt no turn is left by an exception. *)
Lemma turn_no_abort w h domain path scheme timeout e h' :
  no_interrupt w -> turn w h domain path scheme timeout <> (Abort e, h').
Proof.
  intros [Hnetwork Hstdout] Hturn.
  pose proof (turn_spec w h domain path scheme timeout) as Hspec. cbv zeta in Hspec.
  rewrite Hturn in Hspec.
  destruct Hspec as [(response & _ & _ & _ & [=])
                    | [[[=] _] | (e' & _ & He & [Hraised | (response & _ & _ & Hout)])]].
  - apply Hnetwork in Hraised. congruence.
  - apply Hstdout in Hout. congruence.
Qed.

(** Against a world without interrupt the probe returns. *)
Lemma scan_domain_path_returns w domain path timeout delay h :
  no_interrupt w ->
  exists r, (scan_domain_path w domain path timeout delay h).1 = Returned r.
Proof.
  intros Hw. rewrite scan_domain_path_turns.
  destruct (turn w (h ++ delay_events delay)%list domain path "https" timeout)
    as [[out | | e] h2] eqn:Hturn1; cbn [fst]; eauto.
  - destruct (turn w h2 domain path "http" timeout) as [[out | | e] h3] eqn:Hturn2;
      cbn [fst]; eauto.
    destruct (turn_no_abort _ _ _ _ _ _ _ _ Hw Hturn2).
  - destruct (turn_no_abort _ _ _ _ _ _ _ _ Hw Hturn1).
Qed.

(** The first request of a probe goes to the target over HTTPS. *)
Lemma scan_domain_path_asks w domain path timeout delay h :
  exists evs req reqs,
    (scan_domain_path w domain path timeout delay h).2 = (h ++ evs)%list /\
    requests evs = req :: reqs /\
    req_url req = "https://" +:+ domain +:+ path.
Proof.
  pose proof (scan_domain_path_runs w domain path timeout delay h) as Hrun.
  cbv zeta in Hrun.
  set (h1 := (h ++ delay_events delay)%list) in *.
  set (req1 := request_at w h1 _ timeout) in *.
  set (a1 := network w h1 req1) in *.
  set (h2 := (h1 ++ [Get req1 a1])%list) in *.
  set (req2 := request_at w h2 _ timeout) in *.
  set (a2 := network w h2 req2) in *.
  destruct Hrun
    as [(response & _ & _ & ->)
       | [(e & _ & ->)
         | [_ [(response & _ & _ & ->)
              | [(e & _ & ->) | [_ ->]]]]]];
    cbn [snd]; subst h2 h1; rewrite <- ?app_assoc; cbn [app];
    eexists; exists req1; eexists; (split; [reflexivity |]);
    rewrite requests_app, requests_delay; cbn; split; reflexivity.
Qed.

(** Asking a list for each of its positions, in order, gives the list. *)
Lemma omap_lookup_seq {A} (pre l : list A) :
  omap (fun i => (pre ++ l)%list !! i) (seq (length pre) (length l)) = l.
Proof.
  revert pre. induction l as [| x l IH]; intros pre; [reflexivity |].
  cbn [length seq omap list_omap].
  rewrite lookup_app_r by lia. rewrite Nat.sub_diag. cbn [lookup list_lookup].
  f_equal.
  specialize (IH (pre ++ [x])%list).
  rewrite length_app, Nat.add_1_r, <- app_assoc in IH. exact IH.
Qed.

(** Futures taken in an order that names each of them once are the futures
    themselves, up to the order. *)
Lemma omap_lookup_permutation {A} (futures : list A) (order : list nat) :
  order ≡ₚ seq 0 (length futures) ->
  omap (fun i => futures !! i) order ≡ₚ futures.
Proof.
  intros Horder. rewrite Horder.
  pose proof (omap_lookup_seq [] futures) as Hall. cbn [app length] in Hall.
  rewrite Hall. reflexivity.
Qed.

(** The collecting loop over futures that all returned: one turn each. *)
Lemma as_completed_loop_returns total futures st :
  Forall (fun f => exists r, f = Returned r) futures ->
  exists st',
    as_completed_loop total futures st = Returned st' /\
    completed st' = completed st + length futures /\
    completed_values st'
    = (completed_values st ++ seq (completed st + 1) (length futures))%list.
Proof.
  intros Hall. revert st.
  induction Hall as [| f futures [r ->] _ IH]; intros st.
  - exists st. cbn. rewrite Nat.add_0_r, app_nil_r. auto.
  - cbn [as_completed_loop].
    destruct (IH (collect total st r)) as (st' & Hrun & Hcount & Hvalues).
    exists st'. split; [exact Hrun |].
    cbn [collect completed completed_values] in Hcount, Hvalues.
    split; [cbn [length]; lia |].
    rewrite Hvalues, <- app_assoc. cbn [length seq app].
    rewrite (Nat.add_1_r (completed st + 1)). reflexivity.
Qed.

(** The results the loop gathers are results of the futures. *)
Lemma as_completed_loop_results total futures st st' :
  as_completed_loop total futures st = Returned st' ->
  forall out, out ∈ results st' ->
    out ∈ results st \/ Returned (Some out) ∈ futures.
Proof.
  revert st. induction futures as [| [r | e] futures IH]; intros st Hrun out Hout.
  - injection Hrun as <-. auto.
  - cbn [as_completed_loop] in Hrun.
    destruct (IH _ Hrun out Hout) as [Hin | Hin].
    + destruct r as [r |]; cbn [collect results] in Hin.
      * apply elem_of_app in Hin as [Hin | Hin]; [auto |].
        apply list_elem_of_singleton in Hin as ->. right. left.
      * auto.
    + right. right. exact Hin.
  - discriminate.
Qed.

(** The loop, for the futures it gets through: the counter, the progress
    lines and the results. *)
Lemma as_completed_loop_gathers total futures st st' :
  as_completed_loop total futures st = Returned st' ->
  completed st' = completed st + length futures /\
  progress st'
  = (progress st
     ++ map (fun c => (c, total))
          (filter (fun c => c mod 10 = 0) (seq (completed st + 1) (length futures))))%list /\
  results st' = (results st ++ omap outcome futures)%list.
Proof.
  revert st. induction futures as [| [r | e] futures IH]; intros st Hrun.
  - injection Hrun as <-. cbn. rewrite Nat.add_0_r, !app_nil_r. auto.
  - cbn [as_completed_loop] in Hrun.
    destruct (IH _ Hrun) as (Hcount & Hprogress & Hresults).
    cbn [collect completed progress results] in Hcount, Hprogress, Hresults.
    split; [cbn [length]; lia |]. split.
    + rewrite Hprogress. cbn [length seq]. rewrite filter_cons.
      rewrite (Nat.add_1_r (completed st + 1)).
      destruct (decide ((completed st + 1) mod 10 = 0)) as [Hten | Hten].
      * rewrite (proj2 (Nat.eqb_eq _ _) Hten), <- app_assoc. reflexivity.
      * rewrite (proj2 (Nat.eqb_neq _ _) Hten). reflexivity.
    + rewrite Hresults. destruct r as [out |]; cbn [omap list_omap outcome].
      * rewrite <- app_assoc. reflexivity.
      * reflexivity.
  - discriminate.
Qed.

Lemma count_occ_seq_last n : count_occ Nat.eq_dec (seq 0 (S n)) n = 1.
Proof.
  pose proof (proj1 (NoDup_count_occ Nat.eq_dec (seq 0 (S n))) (seq_NoDup _ _) n).
  assert (In n (seq 0 (S n))) as Hin by (apply in_seq; lia).
  apply (count_occ_In Nat.eq_dec) in Hin. lia.
Qed.

(** C8: the targets are the pairs of a host and a path, as many as the
    product of the two lengths; one probe is submitted for each: the future
    of a target holds what the probe of that target returns, a probe whose
    first request goes to that target; the loop takes each future once; the
    counter goes through 0, 1, ..., N, so it holds N once, at the end,
    whatever the probes return; and the results gathered are those of the
    futures. *)
Theorem run_scan_counts_every_target env order domains paths threads delay :
  let targets := make_targets domains paths in
  let N := length domains * length paths in
  let futures := submit_all env targets delay in
  (0 < threads)%Z ->
  order ≡ₚ seq 0 N ->
  (forall i, no_interrupt (env i)) ->
  (forall domain path, (domain, path) ∈ targets <-> domain ∈ domains /\ path ∈ paths) /\
  length targets = N /\
  length futures = N /\
  (forall i host route,
      targets !! i = Some (host, route) ->
      let run := scan_domain_path (env i) host route 10 delay [] in
      futures !! i = Some run.1 /\
      exists req reqs,
        requests run.2 = req :: reqs /\
        req_url req = "https://" +:+ host +:+ route) /\
  omap (fun i => futures !! i) order ≡ₚ futures /\
  exists st,
    run_scan env order domains paths threads delay = Returned st /\
    completed st = N /\
    completed_values st = seq 0 (S N) /\
    count_occ Nat.eq_dec (completed_values st) N = 1 /\
    last (completed_values st) = Some N /\
    results st = omap outcome (omap (fun i => futures !! i) order).
Proof.
  intros targets N futures Hthreads Horder Henv.
  assert (Hlen : length targets = N).
  { subst targets N. rewrite make_targets_list_prod. apply length_prod. }
  assert (Hfutures : length futures = N).
  { subst futures. unfold submit_all. rewrite length_imap. exact Hlen. }
  assert (Hperm : omap (fun i => futures !! i) order ≡ₚ futures).
  { apply omap_lookup_permutation. rewrite Hfutures. exact Horder. }
  split; [| split; [exact Hlen | split; [exact Hfutures | split; [| split; [exact Hperm |]]]]].
  { intros domain path. subst targets. rewrite make_targets_list_prod.
    rewrite !list_elem_of_In. apply in_prod_iff. }
  { intros i host route Htarget run. split.
    - subst futures. unfold submit_all. rewrite list_lookup_imap, Htarget. reflexivity.
    - destruct (scan_domain_path_asks (env i) host route 10 delay [])
        as (evs & req & reqs & Hrun & Hreqs & Hurl).
      exists req, reqs. subst run. rewrite Hrun. split; assumption. }
  assert (Hall : Forall (fun f => exists r, f = Returned r)
                   (omap (fun i => futures !! i) order)).
  { apply Forall_forall. intros f Hf.
    apply list_elem_of_omap in Hf as (i & _ & Hf).
    apply list_elem_of_lookup_2 in Hf. subst futures. unfold submit_all in Hf.
    apply elem_of_lookup_imap in Hf as (j & [domain path] & -> & _).
    apply scan_domain_path_returns. apply Henv. }
  destruct (as_completed_loop_returns (length targets) _ scan_start Hall)
    as (st & Hrun & Hcount & Hvalues).
  rewrite (Permutation_length Hperm), Hfutures in Hcount, Hvalues.
  cbn in Hcount, Hvalues.
  destruct (as_completed_loop_gathers _ _ _ _ Hrun) as (_ & _ & Hresults).
  exists st. split.
  { unfold run_scan. fold targets. fold futures.
    destruct (threads =? 0)%Z eqn:Hzero; [lia |].
    destruct (threads <? 0)%Z eqn:Hneg; [lia | exact Hrun]. }
  split; [exact Hcount |]. split; [exact Hvalues |].
  rewrite Hvalues. change (0 :: seq 1 N) with (seq 0 (S N)).
  split; [apply count_occ_seq_last |].
  split; [rewrite seq_S; apply last_snoc | exact Hresults].
Qed.

Lemma mixed_env_no_interrupt i : no_interrupt (mixed_env i).
Proof.
  unfold mixed_env. split.
  - intros h req e. destruct (Nat.even i); cbn [network json_world dead_world].
    + discriminate.
    + destruct (String.prefix _ _); intros [= <-]; reflexivity.
  - intros h line e. destruct (Nat.even i); discriminate.
Qed.

Lemma run_scan_counts_every_target_witness :
  exists st,
    run_scan mixed_env [2; 0; 3; 1] ["example.com"; "example.org"] ["/api"; "/v1"] 5 1
    = Returned st /\
    completed st = 4 /\
    completed_values st = [0; 1; 2; 3; 4] /\
    map url (results st) = ["https://example.org/api"; "https://example.com/api"].
Proof.
  destruct (run_scan_counts_every_target mixed_env [2; 0; 3; 1]
              ["example.com"; "example.org"] ["/api"; "/v1"] 5 1)
    as (_ & _ & _ & _ & _ & st & Hrun & Hcount & Hvalues & _ & _ & Hresults).
  - reflexivity.
  - apply (bool_decide_unpack _). vm_compute. reflexivity.
  - apply mixed_env_no_interrupt.
  - exists st. split; [exact Hrun |]. split; [exact Hcount |]. split; [exact Hvalues |].
    rewrite Hresults. vm_compute. reflexivity.
Defined.

(** C10: a result returned by the probe has [is_api] set, carries one of
    the six labels, and takes its status code, its server name and its CDN
    flag from the response to the last request, the flag being set exactly
    when that response has a [cf-ray] header; hence every result gathered
    by the scan has [is_api] set. *)
Theorem scan_domain_path_results_positive :
  (forall w domain path timeout delay h out h',
      scan_domain_path w domain path timeout delay h = (Returned (Some out), h') ->
      is_api out = true /\
      (exists label, label ∈ api_labels /\ api_type out = Some label) /\
      exists evs req response line,
        h' = (h ++ evs ++ [Get req (Returned response); Print line])%list /\
        req_url req = url out /\
        status_code out = Some (resp_status_code response) /\
        server out = Some (headers_get (resp_headers response) "server" "Unknown") /\
        cloudflare out
        = Some (bool_decide (is_Some (_store (resp_headers response) !! "cf-ray")))) /\
  (forall env order domains paths threads delay st,
      run_scan env order domains paths threads delay = Returned st ->
      Forall (fun out => is_api out = true) (results st)).
Proof.
  assert (Hpart : forall w domain path timeout delay h out h',
             scan_domain_path w domain path timeout delay h = (Returned (Some out), h') ->
             is_api out = true /\
             (exists label, label ∈ api_labels /\ api_type out = Some label) /\
             exists evs req response line,
               h' = (h ++ evs ++ [Get req (Returned response); Print line])%list /\
               req_url req = url out /\
               status_code out = Some (resp_status_code response) /\
               server out = Some (headers_get (resp_headers response) "server" "Unknown") /\
               cloudflare out
               = Some (bool_decide (is_Some (_store (resp_headers response) !! "cf-ray")))).
  { intros w domain path timeout delay h out h' Hrun.
    destruct (scan_domain_path_found _ _ _ _ _ _ _ _ Hrun)
      as (evs & hreq & req & response & line & Hh' & Hurl & Hpos & Hout).
    split; [rewrite Hout; reflexivity |]. split.
    - unfold api_positive in Hpos.
      pose proof (detect_api_cases (resp_text response) (resp_headers response)
                    (url out)) as Hcases.
      cbv zeta in Hcases.
      destruct Hcases as [[_ Hr] | [_ [(label & Hin & Hr) | Hr]]];
        rewrite Hr in Hpos; try discriminate.
      exists label. split; [exact Hin |].
      rewrite Hout at 1. cbn [api_type found]. rewrite Hout in Hr. cbn [url found] in Hr.
      rewrite Hr. reflexivity.
    - exists evs, req, response, line. rewrite Hout at 2 3 4.
      repeat split; assumption. }
  split; [exact Hpart |].
  intros env order domains paths threads delay st Hrun.
  unfold run_scan in Hrun. destruct (threads =? 0)%Z; [discriminate |].
  destruct (threads <? 0)%Z; [discriminate |].
  apply Forall_forall. intros out Hout.
  destruct (as_completed_loop_results _ _ _ _ Hrun out Hout) as [Hin | Hin].
  - cbn in Hin. apply elem_of_nil in Hin. destruct Hin.
  - apply list_elem_of_omap in Hin as (i & _ & Hin).
    apply list_elem_of_lookup_2 in Hin. unfold submit_all in Hin.
    apply elem_of_lookup_imap in Hin as (j & [domain path] & Hrun' & _).
    symmetry in Hrun'.
    destruct (scan_domain_path (env j) domain path 10 delay []) as [r h'] eqn:Heq.
    cbn [fst] in Hrun'. subst r.
    exact (proj1 (Hpart _ _ _ _ _ _ _ _ Heq)).
Qed.

Lemma scan_domain_path_results_positive_witness :
  (exists out,
      (scan_domain_path json_world "example.com" "/api" 10 1 []).1 = Returned (Some out) /\
      is_api out = true /\ api_type out = Some "REST/JSON" /\
      status_code out = Some 200%Z /\ cloudflare out = Some true) /\
  (exists st,
      run_scan mixed_env [1; 0] ["example.com"] ["/api"; "/v1"] 5 0 = Returned st /\
      Forall (fun out => is_api out = true) (results st)).
Proof.
  destruct scan_domain_path_results_positive as [Hprobe Hscan].
  split.
  - destruct (scan_domain_path json_world "example.com" "/api" 10 1 [])
      as [[[out |] | e] h'] eqn:Hrun; try (vm_compute in Hrun; discriminate).
    exists out. split; [reflexivity |].
    destruct (Hprobe _ _ _ _ _ _ _ _ Hrun) as (Hapi & _ & _).
    split; [exact Hapi |].
    vm_compute in Hrun. injection Hrun as <- _. repeat split.
  - destruct (run_scan mixed_env [1; 0] ["example.com"] ["/api"; "/v1"] 5 0)
      as [st | e] eqn:Hrun; [| vm_compute in Hrun; discriminate].
    exists st. split; [reflexivity |]. exact (Hscan _ _ _ _ _ _ _ Hrun).
Defined.

(** ** The result store *)

(** A run of [save_results] over a structured file that is absent, does not
    parse, or holds an array: the text report grows by the new lines and the
    structured file is written anew with the old items followed by the new
    positive results. *)
Lemma save_results_array json results output_file fs items :
  let json_file := str_replace output_file ".txt" ".json" in
  json_file <> output_file ->
  match files fs !! json_file with
  | Some content =>
      match json_load json content with
      | Some v => v
      | None => JArray []
      end
  | None => JArray []
  end = JArray items ->
  save_results json results output_file fs
  = (Returned tt,
     {| files :=
          <[json_file :=
              json_dump json (JArray (items ++ map json_of_result (positives results)))]>
            (<[output_file :=
                 default "" (files fs !! output_file) +:+ report_lines results]>
               (files fs));
        dirs := {[ "data" ]} ∪ dirs fs |}).
Proof.
  cbv zeta. intros Hpaths Hexisting.
  unfold save_results, bind, os_makedirs, append_file, read_file, write_file, extend, ret.
  cbn [files dirs].
  rewrite lookup_insert_ne by congruence.
  rewrite Hexisting. reflexivity.
Qed.

(** C7: when the structured file is there and does not parse, the run
    returns, and the file then holds the new positive results and nothing
    of its former content. *)
Theorem save_results_unparseable json results output_file fs content :
  let json_file := str_replace output_file ".txt" ".json" in
  json_file <> output_file ->
  files fs !! json_file = Some content ->
  json_load json content = None ->
  exists fs',
    save_results json results output_file fs = (Returned tt, fs') /\
    files fs' !! json_file
    = Some (json_dump json (JArray (map json_of_result (positives results)))).
Proof.
  intros json_file Hpaths Hfile Hload.
  eexists. split.
  - apply (save_results_array json results output_file fs []); [exact Hpaths |].
    fold json_file. rewrite Hfile, Hload. reflexivity.
  - cbn [files app]. fold json_file. apply lookup_insert_eq.
Qed.

Lemma save_results_unparseable_witness :
  files damaged_disk !! "data/bugbounty_apis.json" = Some "[{" /\
  json_load reference_json "[{" = None /\
  exists fs',
    save_results reference_json [Some example_result; None] default_output_file damaged_disk
    = (Returned tt, fs') /\
    files fs' !! "data/bugbounty_apis.json"
    = Some (json_dump reference_json (JArray [json_of_result example_result])).
Proof.
  split; [reflexivity |]. split; [reflexivity |].
  apply (save_results_unparseable reference_json [Some example_result; None]
           default_output_file damaged_disk "[{").
  - vm_compute. discriminate.
  - reflexivity.
  - reflexivity.
Defined.

(** C6: two runs with the same single positive result, the structured
    file being absent at first and [json.load] reading back what the first
    run wrote, leave a structured file of two entries, both that result. *)
Theorem save_results_twice_appends json r output_file fs :
  let json_file := str_replace output_file ".txt" ".json" in
  let entry := json_of_result r in
  is_api r = true ->
  json_file <> output_file ->
  files fs !! json_file = None ->
  json_load json (json_dump json (JArray [entry])) = Some (JArray [entry]) ->
  exists fs1 fs2,
    save_results json [Some r] output_file fs = (Returned tt, fs1) /\
    save_results json [Some r] output_file fs1 = (Returned tt, fs2) /\
    files fs1 !! json_file = Some (json_dump json (JArray [entry])) /\
    files fs2 !! json_file = Some (json_dump json (JArray [entry; entry])).
Proof.
  intros json_file entry Hapi Hpaths Habsent Hload.
  assert (Hnew : map json_of_result (positives [Some r]) = [entry]).
  { unfold positives. cbn. rewrite Hapi. reflexivity. }
  eexists. eexists. split; [| split; [| split]].
  - apply (save_results_array json [Some r] output_file fs []); [exact Hpaths |].
    fold json_file. rewrite Habsent. reflexivity.
  - apply (save_results_array json [Some r] output_file _ [entry]); [exact Hpaths |].
    cbn [files]. fold json_file. rewrite lookup_insert_eq, Hnew. cbn [app].
    rewrite Hload. reflexivity.
  - cbn [files]. fold json_file. rewrite lookup_insert_eq, Hnew. reflexivity.
  - cbn [files]. fold json_file. rewrite lookup_insert_eq, Hnew. reflexivity.
Qed.

Lemma save_results_twice_appends_witness :
  exists fs1 fs2,
    save_results reference_json [Some example_result] default_output_file empty_disk
    = (Returned tt, fs1) /\
    save_results reference_json [Some example_result] default_output_file fs1
    = (Returned tt, fs2) /\
    files fs1 !! "data/bugbounty_apis.json"
    = Some (json_dump reference_json (JArray [json_of_result example_result])) /\
    files fs2 !! "data/bugbounty_apis.json"
    = Some (json_dump reference_json
              (JArray [json_of_result example_result; json_of_result example_result])).
Proof.
  apply (save_results_twice_appends reference_json example_result
           default_output_file empty_disk).
  - reflexivity.
  - vm_compute. discriminate.
  - reflexivity.
  - vm_compute. reflexivity.
Defined.

(** ** Further properties of the classifier *)

Lemma append_cons c s t : String c s +:+ t = String c (s +:+ t).
Proof. reflexivity. Qed.

Lemma append_nil t : EmptyString +:+ t = t.
Proof. reflexivity. Qed.

Lemma prefix_empty s : String.prefix EmptyString s = true.
Proof. destruct s; reflexivity. Qed.

Lemma prefix_app p s t :
  String.prefix p s = true -> String.prefix p (s +:+ t) = true.
Proof.
  revert s. induction p as [| a p IH]; intros s Hp; [apply prefix_empty |].
  destruct s as [| b s]; [discriminate |].
  rewrite append_cons. cbn [String.prefix] in Hp |- *.
  destruct (ascii_dec a b); [apply IH; exact Hp | discriminate].
Qed.

Lemma str_in_app_l sub s t : str_in sub s = true -> str_in sub (s +:+ t) = true.
Proof.
  induction s as [| c s IH]; intros Hin.
  - cbn [str_in] in Hin. rewrite orb_false_r in Hin. destruct sub; [| discriminate].
    rewrite append_nil. destruct t; reflexivity.
  - rewrite append_cons. cbn [str_in] in Hin |- *.
    apply orb_true_iff in Hin as [Hp | Hin].
    + apply (prefix_app sub (String c s) t) in Hp. rewrite append_cons in Hp.
      rewrite Hp. reflexivity.
    + rewrite (IH Hin). apply orb_true_r.
Qed.

Lemma str_in_app_r sub pre s : str_in sub s = true -> str_in sub (pre +:+ s) = true.
Proof.
  intros Hin. induction pre as [| c pre IH]; [exact Hin |].
  rewrite append_cons. cbn [str_in]. rewrite IH. apply orb_true_r.
Qed.

Lemma str_in_wrapped sub pre s post :
  str_in sub s = true -> str_in sub (pre +:+ s +:+ post) = true.
Proof. intros Hin. apply str_in_app_r, str_in_app_l, Hin. Qed.

Lemma lower_app s t : lower (s +:+ t) = lower s +:+ lower t.
Proof.
  induction s as [| c s IH]; [reflexivity |].
  rewrite append_cons. cbn [lower]. rewrite IH. reflexivity.
Qed.

Lemma lower_char_idem c : lower_char (lower_char c) = lower_char c.
Proof. destruct c as [[] [] [] [] [] [] [] []]; vm_compute; reflexivity. Qed.

Lemma lower_idem s : lower (lower s) = lower s.
Proof.
  induction s as [| c s IH]; cbn; [reflexivity |].
  rewrite lower_char_idem, IH. reflexivity.
Qed.

Lemma any_in_wrapped xs pre s post :
  any_in xs (lower s) = true -> any_in xs (lower (pre +:+ s +:+ post)) = true.
Proof.
  unfold any_in. rewrite !existsb_exists. intros (x & Hx & Hin).
  exists x. split; [exact Hx |]. rewrite !lower_app. apply str_in_wrapped, Hin.
Qed.

Lemma lower_in_wrapped sub pre s post :
  str_in sub (lower s) = true -> str_in sub (lower (pre +:+ s +:+ post)) = true.
Proof. intros Hin. rewrite !lower_app. apply str_in_wrapped, Hin. Qed.

Lemma cloudflare_block_wrapped pre text post :
  cloudflare_block text = true -> cloudflare_block (pre +:+ text +:+ post) = true.
Proof.
  unfold cloudflare_block. cbv zeta. intros Hblock.
  apply andb_true_iff in Hblock as [Hvendor Hphrase].
  rewrite (lower_in_wrapped _ pre text post Hvendor). cbn [andb].
  apply orb_true_iff in Hphrase as [Hphrase | Hphrase];
    rewrite (lower_in_wrapped _ pre text post Hphrase);
    [reflexivity | apply orb_true_r].
Qed.

(** X1: a challenge page stays a challenge page whatever is put before
    and after it: the verdict is [(false, "Cloudflare Block")] for every
    body that contains it, under every header mapping. *)
Theorem detect_api_block_survives_wrapping pre text post headers url :
  cloudflare_block text = true ->
  detect_api (pre +:+ text +:+ post) headers url = (false, Some "Cloudflare Block").
Proof.
  intros Hblock. apply (cloudflare_block_wrapped pre text post) in Hblock.
  pose proof (detect_api_cases (pre +:+ text +:+ post) headers url) as Hcases.
  cbv zeta in Hcases. destruct Hcases as [[_ Hr] | [Hfree _]]; [exact Hr | congruence].
Qed.

Lemma detect_api_block_survives_wrapping_witness :
  detect_api ("<html>" +:+ challenge_page +:+ status_body) json_headers
             "https://example.com/api"
  = (false, Some "Cloudflare Block").
Proof.
  apply (detect_api_block_survives_wrapping "<html>" challenge_page status_body).
  vm_compute. reflexivity.
Defined.


(** The verdict of [detect_api]: positive when the body is no challenge
    page and one of the six tests fires. *)
Lemma detect_api_verdict text headers url :
  (detect_api text headers url).1
  = negb (cloudflare_block text) && api_evidence text headers.
Proof.
  unfold detect_api, cloudflare_block, api_evidence. cbv zeta.
  repeat match goal with
         | |- context [if ?c then _ else _] => destruct c eqn:?
         end;
    cbn [fst negb andb orb]; rewrite ?orb_true_r; reflexivity.
Qed.

Lemma api_evidence_wrapped pre text post headers :
  api_evidence text headers = true ->
  api_evidence (pre +:+ text +:+ post) headers = true.
Proof.
  unfold api_evidence. intros Hev.
  repeat match type of Hev with
         | (_ || _) = true => apply orb_true_iff in Hev as [Hev | Hev]
         end;
    first [ rewrite (lower_in_wrapped _ pre text post Hev)
          | rewrite (any_in_wrapped _ pre text post Hev)
          | rewrite (str_in_wrapped _ pre text post Hev)
          | rewrite Hev ];
    cbn [orb]; rewrite ?orb_true_r; reflexivity.
Qed.

(** X2: evidence of an API is not lost by content put around the body:
    a body taken for an API is still taken for one inside any larger body
    that is no challenge page. *)
Theorem detect_api_evidence_survives_wrapping pre text post headers url :
  (detect_api text headers url).1 = true ->
  cloudflare_block (pre +:+ text +:+ post) = false ->
  (detect_api (pre +:+ text +:+ post) headers url).1 = true.
Proof.
  rewrite !detect_api_verdict. intros Hpos Hfree.
  apply andb_true_iff in Hpos as [_ Hev].
  rewrite Hfree, (api_evidence_wrapped pre text post headers Hev). reflexivity.
Qed.

Lemma detect_api_evidence_survives_wrapping_witness :
  (detect_api "GraphiQL" no_headers "https://example.com/").1 = true /\
  (detect_api ("<html><title>" +:+ "GraphiQL" +:+ "</title></html>") no_headers
              "https://example.com/").1 = true.
Proof.
  split; [vm_compute; reflexivity |].
  apply (detect_api_evidence_survives_wrapping "<html><title>" "GraphiQL" "</title></html>");
    vm_compute; reflexivity.
Defined.

(** X3: the letter case of the body does not matter to the verdict, except
    through the test for the XML prolog, which reads the body as it is: a
    body and its lower-cased form get the same verdict when they agree on
    that test, and an upper-case prolog shows that they may differ
    otherwise. *)
Theorem detect_api_body_case text headers url :
  (str_in "<?xml" (lower text) = str_in "<?xml" text ->
   detect_api (lower text) headers url = detect_api text headers url) /\
  detect_api (lower "<?XML version=1.0?>") no_headers url
  <> detect_api "<?XML version=1.0?>" no_headers url.
Proof.
  split.
  - intros Hprolog. unfold detect_api. cbv zeta.
    rewrite lower_idem, Hprolog. reflexivity.
  - vm_compute. discriminate.
Qed.

Lemma detect_api_body_case_witness :
  detect_api (lower "Swagger UI") no_headers "https://example.com/docs"
  = detect_api "Swagger UI" no_headers "https://example.com/docs".
Proof.
  apply (proj1 (detect_api_body_case "Swagger UI" no_headers "https://example.com/docs")).
  vm_compute. reflexivity.
Defined.

(** ** Further properties of the probe *)

Lemma delay_events_none delay : (delay <= 0)%Q -> delay_events delay = [].
Proof.
  intros Hle. unfold delay_events.
  destruct (Qlt_le_dec 0 delay) as [Hlt | _]; [| reflexivity].
  exfalso. exact (Qlt_not_le _ _ Hlt Hle).
Qed.

(** X4: with a delay of zero or less the probe does not sleep at all. *)
Theorem scan_domain_path_no_sleep w domain path timeout delay h :
  (delay <= 0)%Q ->
  exists evs,
    (scan_domain_path w domain path timeout delay h).2 = (h ++ evs)%list /\
    Forall (fun ev => is_sleep ev = false) evs /\
    replies evs <> [].
Proof.
  intros Hdelay.
  pose proof (scan_domain_path_runs w domain path timeout delay h) as Hrun.
  cbv zeta in Hrun. rewrite (delay_events_none delay Hdelay), app_nil_r in Hrun.
  set (req1 := request_at w h _ timeout) in *.
  set (a1 := network w h req1) in *.
  set (h2 := (h ++ [Get req1 a1])%list) in *.
  set (req2 := request_at w h2 _ timeout) in *.
  set (a2 := network w h2 req2) in *.
  destruct Hrun
    as [(response & _ & _ & ->)
       | [(e & _ & ->)
         | [_ [(response & _ & _ & ->)
              | [(e & _ & ->) | [_ ->]]]]]];
    cbn [fst snd]; subst h2; rewrite <- ?app_assoc; cbn [app];
    eexists; (split; [reflexivity |]);
    (split; [repeat constructor | discriminate]).
Qed.

Lemma scan_domain_path_no_sleep_witness :
  exists evs,
    (scan_domain_path blocked_world "example.com" "/api" 10 0 []).2 = ([] ++ evs)%list /\
    Forall (fun ev => is_sleep ev = false) evs /\
    replies evs <> [].
Proof. apply scan_domain_path_no_sleep. discriminate. Defined.

(** X5: the probe prints its notification exactly when it returns a
    result: the line, made of the URL and the label of that result and of
    the mark of the CDN, is then the last event and the only line printed;
    a probe that returns nothing or raises prints nothing. *)
Theorem scan_domain_path_notifies w domain path timeout delay h :
  let run := scan_domain_path w domain path timeout delay h in
  exists evs, run.2 = (h ++ evs)%list /\
    match run.1 with
    | Returned (Some out) =>
        exists evs0,
          evs = (evs0 ++ [Print (notification out)])%list /\
          Forall (fun ev => is_print ev = false) evs0
    | _ => Forall (fun ev => is_print ev = false) evs
    end.
Proof.
  cbv zeta.
  pose proof (scan_domain_path_runs w domain path timeout delay h) as Hrun.
  cbv zeta in Hrun.
  assert (Hdelay : Forall (fun ev => is_print ev = false) (delay_events delay)).
  { unfold delay_events. destruct (Qlt_le_dec 0 delay); repeat constructor. }
  set (h1 := (h ++ delay_events delay)%list) in *.
  set (req1 := request_at w h1 _ timeout) in *.
  set (a1 := network w h1 req1) in *.
  set (h2 := (h1 ++ [Get req1 a1])%list) in *.
  set (req2 := request_at w h2 _ timeout) in *.
  set (a2 := network w h2 req2) in *.
  destruct Hrun
    as [(response & _ & _ & Hrun)
       | [(e & _ & Hrun)
         | [_ [(response & _ & _ & Hrun)
              | [(e & _ & Hrun) | [_ Hrun]]]]]];
    rewrite Hrun; cbn [fst snd].
  - exists (delay_events delay ++ [Get req1 a1; Print (notification
              (found w h1 domain path "https" response))])%list.
    split; [subst h2 h1; rewrite <- !app_assoc; reflexivity |].
    exists (delay_events delay ++ [Get req1 a1])%list.
    split; [rewrite <- app_assoc; reflexivity |].
    apply Forall_app. split; [exact Hdelay | repeat constructor].
  - exists (delay_events delay ++ [Get req1 a1])%list.
    split; [subst h2 h1; rewrite <- !app_assoc; reflexivity |].
    apply Forall_app. split; [exact Hdelay | repeat constructor].
  - exists (delay_events delay ++ [Get req1 a1; Get req2 a2; Print (notification
              (found w h2 domain path "http" response))])%list.
    split; [subst h2 h1; rewrite <- !app_assoc; reflexivity |].
    exists (delay_events delay ++ [Get req1 a1; Get req2 a2])%list.
    split; [rewrite <- app_assoc; reflexivity |].
    apply Forall_app. split; [exact Hdelay | repeat constructor].
  - exists (delay_events delay ++ [Get req1 a1; Get req2 a2])%list.
    split; [subst h2 h1; rewrite <- !app_assoc; reflexivity |].
    apply Forall_app. split; [exact Hdelay | repeat constructor].
  - exists (delay_events delay ++ [Get req1 a1; Get req2 a2])%list.
    split; [subst h2 h1; rewrite <- !app_assoc; reflexivity |].
    apply Forall_app. split; [exact Hdelay | repeat constructor].
Qed.

Lemma request_at_browser w h url timeout :
  browser_request url timeout (request_at w h url timeout).
Proof.
  unfold browser_request, request_at. cbn.
  repeat split.
  exists (nth (dice w h mod length USER_AGENTS) USER_AGENTS "").
  split; [| reflexivity].
  apply list_elem_of_In, nth_In, Nat.mod_upper_bound. discriminate.
Qed.

(** X6: the probe sends one or two requests, over HTTPS first and over
    HTTP second; each carries the timeout it was given and the eleven
    browser headers, with a user agent of the fixed pool. *)
Theorem scan_domain_path_requests w domain path timeout delay h :
  exists evs req1,
    (scan_domain_path w domain path timeout delay h).2 = (h ++ evs)%list /\
    browser_request ("https://" +:+ domain +:+ path) timeout req1 /\
    (requests evs = [req1] \/
     exists req2,
       browser_request ("http://" +:+ domain +:+ path) timeout req2 /\
       requests evs = [req1; req2]).
Proof.
  pose proof (scan_domain_path_runs w domain path timeout delay h) as Hrun.
  cbv zeta in Hrun.
  set (h1 := (h ++ delay_events delay)%list) in *.
  pose proof (request_at_browser w h1 ("https" +:+ "://" +:+ domain +:+ path) timeout)
    as Hreq1.
  set (req1 := request_at w h1 _ timeout) in *.
  set (a1 := network w h1 req1) in *.
  set (h2 := (h1 ++ [Get req1 a1])%list) in *.
  pose proof (request_at_browser w h2 ("http" +:+ "://" +:+ domain +:+ path) timeout)
    as Hreq2.
  set (req2 := request_at w h2 _ timeout) in *.
  set (a2 := network w h2 req2) in *.
  destruct Hrun
    as [(response & _ & _ & ->)
       | [(e & _ & ->)
         | [_ [(response & _ & _ & ->)
              | [(e & _ & ->) | [_ ->]]]]]];
    cbn [snd]; subst h2 h1; rewrite <- ?app_assoc; cbn [app];
    eexists; exists req1; (split; [reflexivity |]); (split; [exact Hreq1 |]);
    rewrite requests_app, requests_delay; cbn;
    first [ left; reflexivity | right; exists req2; split; [exact Hreq2 | reflexivity] ].
Qed.

(** X7: when every reply of the network is a miss (a response that is not
    taken for an API, a challenge page for one, or an exception of class
    [Exception]), the probe asks over both schemes, prints nothing and
    returns [None]. *)
Theorem scan_domain_path_all_misses w domain path timeout delay h :
  (forall h' req, miss (req_url req) (network w h' req) = true) ->
  exists a1 a2,
    (scan_domain_path w domain path timeout delay h).1 = Returned None /\
    replies (drop (length h) (scan_domain_path w domain path timeout delay h).2)
    = [("https://" +:+ domain +:+ path, a1); ("http://" +:+ domain +:+ path, a2)] /\
    Forall (fun ev => is_print ev = false)
      (drop (length h) (scan_domain_path w domain path timeout delay h).2).
Proof.
  intros Hmiss.
  assert (Hdelay : Forall (fun ev => is_print ev = false) (delay_events delay)).
  { unfold delay_events. destruct (Qlt_le_dec 0 delay); repeat constructor. }
  rewrite scan_domain_path_turns.
  set (h1 := (h ++ delay_events delay)%list).
  rewrite (turn_miss w h1 domain path "https" timeout)
    by exact (Hmiss h1 (request_at w h1 ("https" +:+ "://" +:+ domain +:+ path) timeout)).
  set (req1 := request_at w h1 _ timeout).
  set (a1 := network w h1 req1).
  set (h2 := (h1 ++ [Get req1 a1])%list).
  rewrite (turn_miss w h2 domain path "http" timeout)
    by exact (Hmiss h2 (request_at w h2 ("http" +:+ "://" +:+ domain +:+ path) timeout)).
  set (req2 := request_at w h2 _ timeout).
  set (a2 := network w h2 req2).
  exists a1, a2. cbn [fst snd]. subst h2 h1. rewrite <- !app_assoc.
  rewrite drop_app_length. split; [reflexivity |].
  split.
  - rewrite replies_app, replies_delay. reflexivity.
  - apply Forall_app. split; [exact Hdelay | repeat constructor].
Qed.

Lemma scan_domain_path_all_misses_witness :
  (scan_domain_path blocked_world "example.com" "/api" 10 1 []).1 = Returned None.
Proof.
  destruct (scan_domain_path_all_misses blocked_world "example.com" "/api" 10 1 [])
    as (a1 & a2 & Hnone & _).
  - intros h' req. cbn [network blocked_world].
    destruct (String.prefix "https://" (req_url req)); reflexivity.
  - exact Hnone.
Defined.

(** X8: a result names the domain and the path the probe was given and
    the scheme that answered, HTTPS or HTTP; its URL is made of the three;
    and its timestamp is the reading of the clock when the attempt that
    answered began, before its request. *)
Theorem scan_domain_path_result_names_target w host route timeout delay h out h' :
  scan_domain_path w host route timeout delay h = (Returned (Some out), h') ->
  domain out = host /\
  path out = route /\
  (scheme out = "https" \/ scheme out = "http") /\
  url out = scheme out +:+ "://" +:+ host +:+ route /\
  exists hreq req reply line,
    h' = (hreq ++ [Get req reply; Print line])%list /\
    timestamp out = clock w hreq.
Proof.
  intros Heq.
  pose proof (scan_domain_path_runs w host route timeout delay h) as Hrun.
  cbv zeta in Hrun. rewrite Heq in Hrun.
  set (h1 := (h ++ delay_events delay)%list) in *.
  set (req1 := request_at w h1 _ timeout) in *.
  set (a1 := network w h1 req1) in *.
  set (h2 := (h1 ++ [Get req1 a1])%list) in *.
  set (req2 := request_at w h2 _ timeout) in *.
  set (a2 := network w h2 req2) in *.
  destruct Hrun
    as [(response & _ & _ & Hout)
       | [(e & _ & Hout)
         | [_ [(response & _ & _ & Hout)
              | [(e & _ & Hout) | [_ Hout]]]]]];
    try discriminate; injection Hout as -> ->; cbn [found domain path scheme url timestamp].
  - repeat split; [left; reflexivity |].
    exists h1, req1, a1. eexists. subst h2. rewrite <- app_assoc. split; reflexivity.
  - repeat split; [right; reflexivity |].
    exists h2, req2, a2. eexists. rewrite <- app_assoc. split; reflexivity.
Qed.

Lemma scan_domain_path_result_names_target_witness :
  exists out,
    (scan_domain_path json_world "example.com" "/api" 10 0 []).1 = Returned (Some out) /\
    domain out = "example.com" /\ path out = "/api".
Proof.
  destruct (scan_domain_path json_world "example.com" "/api" 10 0 [])
    as [[[out |] | e] h'] eqn:Hrun; try (vm_compute in Hrun; discriminate).
  exists out. split; [reflexivity |].
  destruct (scan_domain_path_result_names_target _ _ _ _ _ _ _ _ Hrun)
    as (Hdomain & Hpath & _).
  split; assumption.
Defined.


(** X21: the notification is printed inside the attempt. When the standard
    output refuses the line of a positive HTTPS answer with an exception of
    class [Exception], the result is dropped and the probe goes on over
    HTTP as after a miss; with any other exception the probe raises it. *)
Theorem scan_domain_path_print_failure w domain path timeout delay h response e :
  let https := "https://" +:+ domain +:+ path in
  let h1 := (h ++ delay_events delay)%list in
  let req1 := request_at w h1 https timeout in
  let a1 := network w h1 req1 in
  let h2 := (h1 ++ [Get req1 a1])%list in
  let run := scan_domain_path w domain path timeout delay h in
  a1 = Returned response ->
  api_positive https a1 = true ->
  stdout w h2 (notification (found w h1 domain path "https" response)) = Raised e ->
  if is_Exception e
  then run = scan_schemes w domain path timeout ["http"] h2
  else run = (Raised e, h2).
Proof.
  cbv zeta. intros Ha1 Hpos Hout.
  rewrite scan_domain_path_unfold, scan_schemes_turn.
  set (h1 := (h ++ delay_events delay)%list) in *.
  unfold turn. cbv zeta.
  change ("https" +:+ "://" +:+ domain +:+ path) with ("https://" +:+ domain +:+ path).
  set (req1 := request_at w h1 _ timeout) in *.
  rewrite Ha1 in Hpos, Hout |- *. rewrite Hpos, Hout.
  destruct (is_Exception e); reflexivity.
Qed.

Lemma scan_domain_path_print_failure_witness :
  scan_domain_path mute_world "example.com" "/api" 10 0 []
  = scan_schemes mute_world "example.com" "/api" 10 ["http"]
      [Get (request_at mute_world [] "https://example.com/api" 10)
           (network mute_world [] (request_at mute_world [] "https://example.com/api" 10))] /\
  (scan_domain_path mute_world "example.com" "/api" 10 0 []).1 = Returned None.
Proof.
  split; [| vm_compute; reflexivity].
  destruct (network mute_world [] (request_at mute_world [] "https://example.com/api" 10))
    as [response | e0] eqn:Hreply; [| vm_compute in Hreply; discriminate].
  rewrite <- Hreply.
  apply (scan_domain_path_print_failure mute_world "example.com" "/api" 10 0 []
           response OtherException).
  - exact Hreply.
  - vm_compute. reflexivity.
  - reflexivity.
Defined.
(** ** Further properties of the scheduler *)

Lemma length_multiples_of_ten n :
  length (filter (fun c => c mod 10 = 0) (seq 1 n)) = n / 10.
Proof.
  induction n as [| n IH]; [reflexivity |].
  rewrite seq_S, filter_app, length_app, IH. cbn [Nat.add].
  rewrite filter_cons, filter_nil.
  pose proof (Nat.div_mod_eq (S n) 10). pose proof (Nat.div_mod_eq n 10).
  pose proof (Nat.mod_upper_bound n 10). pose proof (Nat.mod_upper_bound (S n) 10).
  case_decide; cbn [length]; lia.
Qed.

(** X9: a scan that comes to its end has printed one progress line for
    each multiple of ten among 1, ..., N, in order, each with that count
    and the total N: N / 10 lines, none for fewer than ten targets. *)
Theorem run_scan_progress env order domains paths threads delay st :
  let N := length domains * length paths in
  order ≡ₚ seq 0 N ->
  run_scan env order domains paths threads delay = Returned st ->
  progress st = map (fun c => (c, N)) (filter (fun c => c mod 10 = 0) (seq 1 N)) /\
  length (progress st) = N / 10.
Proof.
  intros N Horder Hrun. unfold run_scan in Hrun.
  destruct (threads =? 0)%Z; [discriminate |].
  destruct (threads <? 0)%Z; [discriminate |].
  set (targets := make_targets domains paths) in *.
  set (futures := submit_all env targets delay) in *.
  assert (Hlen : length targets = N).
  { subst targets N. rewrite make_targets_list_prod. apply length_prod. }
  assert (Hfutures : length futures = N).
  { subst futures. unfold submit_all. rewrite length_imap. exact Hlen. }
  assert (Hperm : omap (fun i => futures !! i) order ≡ₚ futures).
  { apply omap_lookup_permutation. rewrite Hfutures. exact Horder. }
  apply as_completed_loop_gathers in Hrun as (_ & Hprogress & _).
  rewrite (Permutation_length Hperm), Hfutures, Hlen in Hprogress.
  cbn in Hprogress. rewrite Hprogress.
  split; [reflexivity |]. rewrite length_map. apply length_multiples_of_ten.
Qed.

Lemma run_scan_progress_witness :
  exists st,
    run_scan mixed_env (seq 0 34) ["example.com"] generate_api_paths 5 0 = Returned st /\
    length (progress st) = 3.
Proof.
  destruct (run_scan mixed_env (seq 0 34) ["example.com"] generate_api_paths 5 0)
    as [st | e] eqn:Hrun; [| vm_compute in Hrun; discriminate].
  exists st. split; [reflexivity |].
  apply (run_scan_progress mixed_env (seq 0 34) ["example.com"] generate_api_paths 5 0 st
           (reflexivity _) Hrun).
Defined.

(** X10: the results of a scan that comes to its end are the results the
    probes returned, in the order the futures completed; so the counts of
    the summary are ordered: CDN-flagged results, results, targets. *)
Theorem run_scan_results_in_completion_order env order domains paths threads delay st :
  let targets := make_targets domains paths in
  order ≡ₚ seq 0 (length targets) ->
  run_scan env order domains paths threads delay = Returned st ->
  results st
  = omap outcome (omap (fun i => submit_all env targets delay !! i) order) /\
  let '(scanned, discovered, flagged) := summary targets (results st) in
  flagged <= discovered <= scanned.
Proof.
  intros targets Horder Hrun. unfold run_scan in Hrun.
  destruct (threads =? 0)%Z; [discriminate |].
  destruct (threads <? 0)%Z; [discriminate |].
  fold targets in Hrun.
  set (futures := submit_all env targets delay) in *.
  assert (Hfutures : length futures = length targets).
  { subst futures. unfold submit_all. apply length_imap. }
  assert (Hperm : omap (fun i => futures !! i) order ≡ₚ futures).
  { apply omap_lookup_permutation. rewrite Hfutures. exact Horder. }
  apply as_completed_loop_gathers in Hrun as (_ & _ & Hresults).
  cbn [results scan_start app] in Hresults.
  split; [exact Hresults |].
  unfold summary, cloudflare_count. split; [apply length_filter |].
  rewrite Hresults, <- Hfutures, <- (Permutation_length Hperm).
  generalize (omap (fun i => futures !! i) order). intros l.
  induction l as [| [[out |] | e] l IH]; cbn [omap list_omap outcome length]; lia.
Qed.

Lemma run_scan_results_in_completion_order_witness :
  exists st,
    run_scan mixed_env [3; 2; 1; 0] ["example.com"; "example.org"] ["/api"; "/v1"] 5 0
    = Returned st /\
    map url (results st) = ["https://example.org/api"; "https://example.com/api"].
Proof.
  destruct (run_scan mixed_env [3; 2; 1; 0] ["example.com"; "example.org"]
              ["/api"; "/v1"] 5 0) as [st | e] eqn:Hrun;
    [| vm_compute in Hrun; discriminate].
  exists st. split; [reflexivity |].
  destruct (run_scan_results_in_completion_order mixed_env [3; 2; 1; 0]
              ["example.com"; "example.org"] ["/api"; "/v1"] 5 0 st) as [Hresults _].
  - apply (bool_decide_unpack _). vm_compute. reflexivity.
  - exact Hrun.
  - rewrite Hresults. vm_compute. reflexivity.
Defined.

(** X11: targets are not repeated when neither the domains nor the paths
    are; the paths of the built-in catalogue are not, and there are 34 of
    them, so a scan of distinct domains over the catalogue probes no target
    twice. *)
Theorem make_targets_no_duplicates :
  (forall domains paths,
      NoDup domains -> NoDup paths -> NoDup (make_targets domains paths)) /\
  NoDup generate_api_paths /\
  length generate_api_paths = 34.
Proof.
  split; [| split; [apply (bool_decide_unpack _); vm_compute; reflexivity | reflexivity]].
  intros domains paths Hdomains Hpaths.
  induction Hdomains as [| d domains Hnew _ IH]; [constructor |].
  unfold make_targets. cbn [flat_map]. apply NoDup_app. split; [| split].
  - rewrite NoDup_ListNoDup. apply Finite.Injective_map_NoDup.
    + intros p1 p2 [= ->]. reflexivity.
    + apply NoDup_ListNoDup. exact Hpaths.
  - intros [d' p] Hin1 Hin2.
    apply list_elem_of_In, in_map_iff in Hin1 as (p' & [= <- <-] & _).
    apply list_elem_of_In, in_flat_map in Hin2 as (d'' & Hd'' & Hin2).
    apply in_map_iff in Hin2 as (p'' & [= <- <-] & _).
    apply Hnew, list_elem_of_In, Hd''.
  - exact IH.
Qed.

Lemma make_targets_no_duplicates_witness :
  NoDup (make_targets ["example.com"; "example.org"] generate_api_paths).
Proof.
  destruct make_targets_no_duplicates as (Htargets & Hpaths & _).
  apply Htargets; [| exact Hpaths].
  apply (bool_decide_unpack _). vm_compute. reflexivity.
Defined.

Lemma normalize_path_rooted path : startswith (normalize_path path) "/" = true.
Proof.
  unfold normalize_path. destruct (startswith path "/") eqn:Hslash; cbn [negb].
  - exact Hslash.
  - unfold startswith. rewrite append_cons. cbn [String.prefix].
    destruct (ascii_dec "/" "/"); [apply prefix_empty | congruence].
Qed.

(** X12: the paths of a scan with custom paths. When none is typed in,
    they are the built-in paths of [generate_api_paths]; otherwise they are
    the typed paths in their order, one for one, a path that begins with a
    slash as it is and any other with a slash put before it. Either way the
    list is not empty and all its members begin with a slash. *)
Theorem choose_paths_rooted typed :
  let paths := choose_paths (map normalize_path typed) in
  paths = match typed with
          | [] => generate_api_paths
          | _ :: _ =>
              map (fun path => if startswith path "/" then path else "/" +:+ path) typed
          end /\
  paths <> [] /\
  Forall (fun path => startswith path "/" = true) paths /\
  Forall (fun path => startswith path "/" = true -> normalize_path path = path) typed.
Proof.
  cbv zeta. split; [| split; [| split]].
  - destruct typed as [| path typed]; [reflexivity |].
    cbn [map choose_paths]. unfold normalize_path.
    f_equal; [destruct (startswith path "/"); reflexivity |].
    apply map_ext. intros p. destruct (startswith p "/"); reflexivity.
  - destruct typed; discriminate.
  - destruct typed as [| path typed]; cbn [map choose_paths].
    + unfold generate_api_paths. repeat constructor.
    + constructor; [apply normalize_path_rooted |].
      apply Forall_forall. intros p Hin.
      apply list_elem_of_In, in_map_iff in Hin as (p' & <- & _).
      apply normalize_path_rooted.
  - apply Forall_forall. intros path _ Hslash.
    unfold normalize_path. rewrite Hslash. reflexivity.
Qed.

(** ** Further properties of the result store *)

Lemma report_lines_positives results :
  report_lines results
  = foldr (fun r acc => report_line r +:+ acc) EmptyString (positives results).
Proof.
  induction results as [| [r |] results IH]; [reflexivity | |].
  - unfold report_lines, positives in *. cbn [foldr omap list_omap positive].
    destruct (is_api r); cbn [foldr]; rewrite IH; reflexivity.
  - exact IH.
Qed.

Lemma positives_positive results : Forall (fun r => is_api r = true) (positives results).
Proof.
  apply Forall_forall. intros r Hin. unfold positives in Hin.
  apply list_elem_of_omap in Hin as ([r' |] & _ & Hr); cbn [positive] in Hr.
  - destruct (is_api r') eqn:Hapi; [| discriminate]. injection Hr as <-. exact Hapi.
  - discriminate.
Qed.

Lemma positives_all results :
  Forall (fun r => is_api r = true) results -> positives (map Some results) = results.
Proof.
  induction 1 as [| r results Hapi _ IH]; [reflexivity |].
  unfold positives in *. cbn [map omap list_omap positive].
  rewrite Hapi, IH. reflexivity.
Qed.

Lemma str_replace_absent s old new :
  str_in old s = false -> str_replace s old new = s.
Proof.
  unfold str_replace. induction s as [| c s IH]; [reflexivity |].
  cbn [str_in replace_from]. intros Hin.
  apply orb_false_iff in Hin as [Hprefix Hin].
  rewrite Hprefix, (IH Hin). reflexivity.
Qed.

(** X13: when the structured file holds a JSON value that is not an
    array, the run raises [AttributeError]; by then the lines of the text
    report have been appended, and the structured file is left as it was. *)
Theorem save_results_not_a_list json results output_file fs content v :
  let json_file := str_replace output_file ".txt" ".json" in
  json_file <> output_file ->
  files fs !! json_file = Some content ->
  json_load json content = Some v ->
  (forall items, v <> JArray items) ->
  exists fs',
    save_results json results output_file fs = (Raised AttributeError, fs') /\
    files fs' !! json_file = Some content /\
    files fs' !! output_file
    = Some (default "" (files fs !! output_file) +:+ report_lines results).
Proof.
  intros json_file Hpaths Hfile Hload Hv.
  unfold save_results, bind, os_makedirs, append_file, read_file, write_file, ret.
  cbn [files dirs]. fold json_file.
  rewrite lookup_insert_ne by congruence. rewrite Hfile, Hload.
  destruct v; try (eexists; split; [reflexivity |]; cbn [files];
                   rewrite lookup_insert_ne by congruence;
                   rewrite lookup_insert_eq; split; [exact Hfile | reflexivity]).
  exfalso. exact (Hv _ eq_refl).
Qed.

Lemma save_results_not_a_list_witness :
  exists fs',
    save_results reference_json [Some example_result] default_output_file object_disk
    = (Raised AttributeError, fs') /\
    files fs' !! "data/bugbounty_apis.json" = files object_disk !! "data/bugbounty_apis.json" /\
    files fs' !! "data/bugbounty_apis.txt" = Some (report_line example_result).
Proof.
  destruct (save_results_not_a_list reference_json [Some example_result]
              default_output_file object_disk
              ("{" +:+ DQ +:+ "a" +:+ DQ +:+ ": 1}") (JObject [("a", JInt 1)]))
    as (fs' & Hrun & Hjson & Htext).
  - vm_compute. discriminate.
  - reflexivity.
  - vm_compute. reflexivity.
  - discriminate.
  - exists fs'. split; [exact Hrun |]. split; [exact Hjson |].
    refine (eq_trans Htext _). vm_compute. reflexivity.
Defined.

(** X14: for an output path without [.txt] the structured file is the
    text report itself: a run that returns leaves at that path the dump of
    an array that ends with the new positive results, and nothing of the
    report. *)
Theorem save_results_overwrites_report json results output_file fs fs' :
  str_in ".txt" output_file = false ->
  save_results json results output_file fs = (Returned tt, fs') ->
  str_replace output_file ".txt" ".json" = output_file /\
  exists items,
    files fs' !! output_file
    = Some (json_dump json (JArray (items ++ map json_of_result (positives results)))).
Proof.
  intros Habsent Hrun.
  pose proof (str_replace_absent output_file ".txt" ".json" Habsent) as Hsame.
  split; [exact Hsame |].
  unfold save_results, bind, os_makedirs, append_file, read_file, write_file, ret in Hrun.
  cbn [files dirs] in Hrun. rewrite Hsame, lookup_insert_eq in Hrun.
  match type of Hrun with
  | context [extend ?existing _] => destruct existing as [| | | | items |]
  end; try discriminate.
  cbn [extend ret] in Hrun. injection Hrun as <-.
  exists items. cbn [files]. apply lookup_insert_eq.
Qed.

Lemma save_results_overwrites_report_witness :
  exists fs' items,
    save_results reference_json [Some example_result] "report" empty_disk
    = (Returned tt, fs') /\
    files fs' !! "report"
    = Some (json_dump reference_json (JArray (items ++ [json_of_result example_result]))).
Proof.
  destruct (save_results reference_json [Some example_result] "report" empty_disk)
    as [[[] | e] fs'] eqn:Hrun; [| vm_compute in Hrun; discriminate].
  destruct (save_results_overwrites_report reference_json [Some example_result]
              "report" empty_disk fs') as (_ & items & Hfile).
  - reflexivity.
  - exact Hrun.
  - exists fs', items. split; [reflexivity | exact Hfile].
Defined.

(** X15: when the structured file has another name than the text
    report, and the run returns, or raises [AttributeError] because the
    stored value is not a list, the text report is what it was, followed by
    one line for each positive result, in order; results that are [None] or
    not positive add nothing. *)
Theorem save_results_appends_report json results output_file fs outcome fs' :
  str_replace output_file ".txt" ".json" <> output_file ->
  save_results json results output_file fs = (outcome, fs') ->
  outcome = Returned tt \/ outcome = Raised AttributeError ->
  files fs' !! output_file
  = Some (default "" (files fs !! output_file)
          +:+ foldr (fun r acc => report_line r +:+ acc) EmptyString (positives results)).
Proof.
  intros Hpaths Hrun _. rewrite <- report_lines_positives.
  replace fs' with (save_results json results output_file fs).2 by (rewrite Hrun; reflexivity).
  unfold save_results, bind, os_makedirs, append_file, read_file, write_file, ret.
  cbn [files dirs].
  match goal with
  | |- context [extend ?existing _] => destruct existing
  end; cbn [extend ret raise snd files];
    rewrite ?(lookup_insert_ne _ _ _ _ Hpaths); apply lookup_insert_eq.
Qed.

Lemma save_results_appends_report_witness :
  (save_results reference_json [None; Some example_result] default_output_file
     object_disk).1 = Raised AttributeError /\
  files (save_results reference_json [None; Some example_result] default_output_file
           object_disk).2 !! default_output_file
  = Some (report_line example_result).
Proof.
  destruct (save_results reference_json [None; Some example_result] default_output_file
              object_disk) as [outcome fs'] eqn:Hrun.
  assert (Houtcome : outcome = Raised AttributeError).
  { apply (f_equal fst) in Hrun. vm_compute in Hrun. symmetry. exact Hrun. }
  split; [exact Houtcome |]. cbn [snd].
  rewrite (save_results_appends_report reference_json [None; Some example_result]
             default_output_file object_disk outcome fs').
  - vm_compute. reflexivity.
  - vm_compute. discriminate.
  - exact Hrun.
  - right. exact Houtcome.
Defined.

(** X16: when the structured file holds an array, the run returns and the
    file then holds the entries it held, in their order, followed by the
    new positive results: entries are neither dropped nor compared. *)
Theorem save_results_keeps_entries json results output_file fs content items :
  let json_file := str_replace output_file ".txt" ".json" in
  json_file <> output_file ->
  files fs !! json_file = Some content ->
  json_load json content = Some (JArray items) ->
  exists fs',
    save_results json results output_file fs = (Returned tt, fs') /\
    files fs' !! json_file
    = Some (json_dump json (JArray (items ++ map json_of_result (positives results)))) /\
    Forall (fun r => is_api r = true) (positives results).
Proof.
  intros json_file Hpaths Hfile Hload.
  eexists. split; [| split; [| apply positives_positive]].
  - apply (save_results_array json results output_file fs items); [exact Hpaths |].
    fold json_file. rewrite Hfile, Hload. reflexivity.
  - cbn [files]. fold json_file. apply lookup_insert_eq.
Qed.

Lemma save_results_keeps_entries_witness :
  exists fs',
    save_results reference_json [Some example_result] default_output_file array_disk
    = (Returned tt, fs') /\
    files fs' !! "data/bugbounty_apis.json"
    = Some (json_dump reference_json
              (JArray [JInt 1; JInt 2; json_of_result example_result])).
Proof.
  destruct (save_results_keeps_entries reference_json [Some example_result]
              default_output_file array_disk "[1, 2]" [JInt 1; JInt 2])
    as (fs' & Hrun & Hfile & _).
  - vm_compute. discriminate.
  - reflexivity.
  - vm_compute. reflexivity.
  - exists fs'. split; [exact Hrun | exact Hfile].
Defined.

(** ** The end of [main] *)

(** Every result gathered by a scan has [is_api] set. *)
Lemma run_scan_results_positive env order domains paths threads delay st :
  run_scan env order domains paths threads delay = Returned st ->
  Forall (fun out => is_api out = true) (results st).
Proof.
  intros Hrun. unfold run_scan in Hrun.
  destruct (threads =? 0)%Z; [discriminate |].
  destruct (threads <? 0)%Z; [discriminate |].
  apply Forall_forall. intros out Hout.
  destruct (as_completed_loop_results _ _ _ _ Hrun out Hout) as [Hin | Hin].
  - cbn in Hin. apply elem_of_nil in Hin. destruct Hin.
  - apply list_elem_of_omap in Hin as (i & _ & Hin).
    apply list_elem_of_lookup_2 in Hin. unfold submit_all in Hin.
    apply elem_of_lookup_imap in Hin as (j & [host route] & Hrun' & _).
    symmetry in Hrun'.
    destruct (scan_domain_path (env j) host route 10 delay []) as [r h'] eqn:Heq.
    cbn [fst] in Hrun'. subst r.
    destruct (scan_domain_path_found _ _ _ _ _ _ _ _ Heq)
      as (evs & hreq & req & response & line & _ & _ & _ & Hout').
    rewrite Hout'. reflexivity.
Qed.

(** X17: at the end of a scan, with no structured file yet, [main]
    leaves the disk untouched when nothing was found, and otherwise writes
    every result of the scan to the structured file, in the order they were
    gathered: the filter of the store drops none of them. *)
Theorem save_found_persists_scan json env order domains paths threads delay st fs :
  run_scan env order domains paths threads delay = Returned st ->
  files fs !! "data/bugbounty_apis.json" = None ->
  exists fs',
    save_found json (results st) fs = (Returned tt, fs') /\
    match results st with
    | [] => fs' = fs
    | _ :: _ =>
        files fs' !! "data/bugbounty_apis.json"
        = Some (json_dump json (JArray (map json_of_result (results st))))
    end.
Proof.
  intros Hrun Habsent.
  pose proof (run_scan_results_positive _ _ _ _ _ _ _ Hrun) as Hpositive.
  destruct (results st) as [| out outs] eqn:Hresults.
  - exists fs. split; reflexivity.
  - unfold save_found.
    assert (Hjson : str_replace default_output_file ".txt" ".json"
                    = "data/bugbounty_apis.json") by (vm_compute; reflexivity).
    eexists. split.
    + apply (save_results_array json (map Some (out :: outs)) default_output_file fs []).
      * rewrite Hjson. vm_compute. discriminate.
      * rewrite Hjson, Habsent. reflexivity.
    + cbn [files app]. rewrite Hjson, lookup_insert_eq.
      rewrite (positives_all _ Hpositive). reflexivity.
Qed.

Lemma save_found_persists_scan_witness :
  exists st fs',
    run_scan mixed_env [1; 0] ["example.com"] ["/api"; "/v1"] 5 0 = Returned st /\
    save_found reference_json (results st) empty_disk = (Returned tt, fs') /\
    files fs' !! "data/bugbounty_apis.json"
    = Some (json_dump reference_json (JArray (map json_of_result (results st)))).
Proof.
  destruct (run_scan mixed_env [1; 0] ["example.com"] ["/api"; "/v1"] 5 0)
    as [st | e] eqn:Hrun; [| vm_compute in Hrun; discriminate].
  destruct (save_found_persists_scan reference_json _ _ _ _ _ _ st empty_disk Hrun)
    as (fs' & Hsave & Hfile); [reflexivity |].
  exists st, fs'. split; [reflexivity |]. split; [exact Hsave |].
  destruct (results st) as [| out outs] eqn:Hresults; [| exact Hfile].
  exfalso.
  assert (Hlen : match run_scan mixed_env [1; 0] ["example.com"] ["/api"; "/v1"] 5 0 with
                 | Returned st' => length (results st')
                 | Raised _ => 0
                 end = 1) by (vm_compute; reflexivity).
  rewrite Hrun, Hresults in Hlen. discriminate.
Defined.

(** ** Properties of the provisioning *)

Lemma rstrip_cons c s :
  rstrip (String c s)
  = match rstrip s with
    | EmptyString => if is_space c then EmptyString else String c EmptyString
    | String _ _ as r => String c r
    end.
Proof. reflexivity. Qed.

Lemma rstrip_idem s : rstrip (rstrip s) = rstrip s.
Proof.
  induction s as [| c s IH]; [reflexivity |].
  rewrite rstrip_cons. destruct (rstrip s) as [| a r] eqn:Hr.
  - destruct (is_space c) eqn:Hc; [reflexivity |].
    rewrite rstrip_cons. cbn [rstrip]. rewrite Hc. reflexivity.
  - rewrite rstrip_cons, IH. reflexivity.
Qed.

Lemma rstrip_head c s :
  is_space c = false -> exists t, rstrip (String c s) = String c t.
Proof.
  intros Hc. rewrite rstrip_cons. destruct (rstrip s); [rewrite Hc |]; eauto.
Qed.

Lemma lstrip_head s :
  lstrip s = EmptyString \/
  exists c t, lstrip s = String c t /\ is_space c = false.
Proof.
  induction s as [| c s IH]; [left; reflexivity |].
  cbn [lstrip]. destruct (is_space c) eqn:Hc; [exact IH | right; eauto].
Qed.

Lemma strip_comm s : rstrip (lstrip s) = lstrip (rstrip s).
Proof.
  induction s as [| c s IH]; [reflexivity |].
  cbn [lstrip]. destruct (is_space c) eqn:Hc.
  - rewrite IH, rstrip_cons. destruct (rstrip s) as [| a r]; rewrite ?Hc; cbn [lstrip];
      rewrite ?Hc; reflexivity.
  - destruct (rstrip_head c s Hc) as [t ->]. cbn [lstrip]. rewrite Hc. reflexivity.
Qed.

Lemma strip_idem s : strip (strip s) = strip s.
Proof.
  unfold strip.
  assert (Hfixed : lstrip (rstrip (lstrip s)) = rstrip (lstrip s)).
  { destruct (lstrip_head s) as [-> | (c & t & -> & Hc)]; [reflexivity |].
    destruct (rstrip_head c t Hc) as [t' ->]. cbn [lstrip]. rewrite Hc. reflexivity. }
  rewrite Hfixed. apply rstrip_idem.
Qed.

Lemma rstrip_line body : rstrip (body +:+ NL) = rstrip body.
Proof.
  induction body as [| c body IH]; [reflexivity |].
  rewrite append_cons, !rstrip_cons, IH. reflexivity.
Qed.

Lemma Forall_rstrip (P : ascii -> Prop) s :
  Forall P (list_ascii_of_string s) -> Forall P (list_ascii_of_string (rstrip s)).
Proof.
  induction s as [| c s IH]; [auto |].
  cbn [list_ascii_of_string]. intros Hall. apply Forall_cons in Hall as [Hc Hs].
  rewrite rstrip_cons. specialize (IH Hs).
  destruct (rstrip s) as [| a r]; [destruct (is_space c) |];
    cbn [list_ascii_of_string] in *; repeat (first [assumption | constructor]).
Qed.

Lemma Forall_lstrip (P : ascii -> Prop) s :
  Forall P (list_ascii_of_string s) -> Forall P (list_ascii_of_string (lstrip s)).
Proof.
  induction s as [| c s IH]; [auto |].
  cbn [list_ascii_of_string lstrip]. intros Hall.
  destruct (is_space c); [| exact Hall].
  apply Forall_cons in Hall as [_ Hs]. exact (IH Hs).
Qed.

(** A line of a file: a body without line end, closed by a line feed or,
    for the last line, by nothing. *)
Lemma file_lines_shape content :
  Forall (fun line =>
            exists body,
              (line = body \/ line = body +:+ NL) /\
              Forall not_line_end (list_ascii_of_string body))
         (file_lines content).
Proof.
  assert (Hempty : exists body : string,
             (NL = body \/ NL = body +:+ NL) /\
             Forall not_line_end (list_ascii_of_string body)).
  { exists EmptyString. split; [right; reflexivity | constructor]. }
  induction content as [| c rest IH]; [constructor |].
  cbn [file_lines].
  destruct (Ascii.eqb_spec c "010") as [-> | Hlf]; [constructor; assumption |].
  destruct (Ascii.eqb_spec c "013") as [-> | Hcr].
  - destruct rest as [| d rest']; [repeat constructor; assumption |].
    destruct (Ascii.eqb_spec d "010") as [-> | Hd].
    + cbn [file_lines] in IH. cbn [Ascii.eqb Bool.eqb] in IH.
      apply Forall_cons in IH as [_ IH]. constructor; assumption.
    + constructor; assumption.
  - destruct (file_lines rest) as [| line lines].
    + constructor; [| constructor]. exists (String c EmptyString).
      split; [left; reflexivity |]. repeat constructor; assumption.
    + apply Forall_cons in IH as [(body & Hline & Hbody) IH].
      constructor; [| exact IH]. exists (String c body). split.
      * destruct Hline as [-> | ->]; [left | right]; reflexivity.
      * cbn [list_ascii_of_string]. constructor; [split; assumption | exact Hbody].
Qed.

Lemma strip_line_clean line body :
  line = body \/ line = body +:+ NL ->
  Forall not_line_end (list_ascii_of_string body) ->
  Forall not_line_end (list_ascii_of_string (strip line)).
Proof.
  intros Hline Hbody. unfold strip. rewrite strip_comm.
  apply Forall_lstrip.
  destruct Hline as [-> | ->]; rewrite ?rstrip_line; apply Forall_rstrip, Hbody.
Qed.

(** X18: what [load_targets_from_file] hands over when it returns. From a
    file, names that are not empty, have no white space at either end and no
    line end inside, and nothing is printed; for a path that does not exist,
    the empty list, after one line that names the path. *)
Theorem load_targets_from_file_clean fs filename h domains h' :
  load_targets_from_file fs filename h = (Returned domains, h') ->
  Forall clean_name domains /\
  match files fs !! filename with
  | Some _ => h' = h
  | None =>
      domains = [] /\
      h' = (h ++ [Print (RED +:+ "[!] File not found: " +:+ filename +:+ RESET)])%list
  end.
Proof.
  unfold load_targets_from_file.
  destruct (files fs !! filename) as [content |]; intros [= <- <-].
  - split; [| reflexivity].
    apply Forall_forall. intros name Hin.
    apply list_elem_of_omap in Hin as (line & Hline & Hname).
    destruct (String.eqb_spec (strip line) EmptyString) as [| Hfull];
      [discriminate |].
    destruct (startswith line "#"); [discriminate |].
    injection Hname as <-.
    split; [exact Hfull |]. split; [apply strip_idem |].
    pose proof (file_lines_shape content) as Hshape.
    rewrite Forall_forall in Hshape.
    destruct (Hshape line Hline) as (body & Hbody & Hclean).
    exact (strip_line_clean line body Hbody Hclean).
  - split; [constructor | split; reflexivity].
Qed.

Lemma load_targets_from_file_clean_witness :
  Forall clean_name ["api.example.com"; "# staging"; "example.org"] /\
  exists h',
    load_targets_from_file empty_disk "domains.txt" [] = (Returned [], h') /\
    length h' = 1.
Proof.
  split.
  - destruct (load_targets_from_file_clean targets_disk "domains.txt" []
                ["api.example.com"; "# staging"; "example.org"] []) as [Hclean _].
    + vm_compute. reflexivity.
    + exact Hclean.
  - destruct (load_targets_from_file empty_disk "domains.txt" []) as [[domains | e] h']
      eqn:Hrun; [| vm_compute in Hrun; discriminate].
    destruct (load_targets_from_file_clean empty_disk "domains.txt" [] domains h' Hrun)
      as [_ Hmissing].
    change (files empty_disk !! "domains.txt") with (@None string) in Hmissing.
    destruct Hmissing as [-> ->]. eexists. split; reflexivity.
Defined.

Lemma startswith_cons c s p :
  startswith (String c s) (String p EmptyString) = true -> c = p.
Proof.
  unfold startswith. cbn [String.prefix].
  destruct (ascii_dec p c); [auto | discriminate].
Qed.

(** X19: a line that begins with [#] is not loaded, but the test reads
    the line before it is stripped: a loaded name begins with [#] only when
    its line had white space before the [#], and this does happen: the
    indented comment of the example file is loaded as a target. *)
Theorem load_targets_from_file_comments fs filename content h :
  files fs !! filename = Some content ->
  exists domains,
    (load_targets_from_file fs filename h).1 = Returned domains /\
    Forall (fun name =>
              startswith name "#" = true ->
              exists c rest,
                String c rest ∈ file_lines content /\ is_space c = true /\
                name = strip (String c rest))
           domains /\
    (load_targets_from_file targets_disk "domains.txt" h).1
    = Returned ["api.example.com"; "# staging"; "example.org"].
Proof.
  intros Hfile. unfold load_targets_from_file at 1. rewrite Hfile.
  eexists. split; [reflexivity |]. split; [| reflexivity].
  apply Forall_forall. intros name Hin Hhash.
  apply list_elem_of_omap in Hin as (line & Hline & Hname).
  destruct (String.eqb_spec (strip line) EmptyString) as [| Hfull]; [discriminate |].
  destruct (startswith line "#") eqn:Hcomment; [discriminate |].
  injection Hname as <-.
  destruct line as [| c rest]; [exfalso; apply Hfull; reflexivity |].
  exists c, rest. split; [exact Hline |]. split; [| reflexivity].
  destruct (is_space c) eqn:Hc; [reflexivity | exfalso].
  unfold strip in Hhash. cbn [lstrip] in Hhash. rewrite Hc in Hhash.
  destruct (rstrip_head c rest Hc) as [t Ht]. rewrite Ht in Hhash.
  apply startswith_cons in Hhash as ->.
  unfold startswith in Hcomment. cbn [String.prefix] in Hcomment.
  destruct (ascii_dec "#" "#"); [| congruence].
  rewrite prefix_empty in Hcomment. discriminate.
Qed.

Lemma load_targets_from_file_comments_witness :
  exists domains,
    (load_targets_from_file targets_disk "domains.txt" []).1 = Returned domains /\
    "# staging" ∈ domains.
Proof.
  destruct (load_targets_from_file_comments targets_disk "domains.txt" targets_file [])
    as (domains & Hload & _ & Hexample); [reflexivity |].
  exists domains. split; [exact Hload |].
  rewrite Hload in Hexample. injection Hexample as ->.
  apply list_elem_of_In. right. left. reflexivity.
Defined.

(** The first part of a split holds no separator. *)
Lemma str_split_head s sep :
  Forall (fun c => c <> sep) (list_ascii_of_string (hd EmptyString (str_split s sep))).
Proof.
  induction s as [| c s IH]; [constructor |].
  cbn [str_split]. destruct (Ascii.eqb_spec c sep) as [| Hc]; [constructor |].
  destruct (str_split s sep) as [| part parts]; cbn [hd list_ascii_of_string] in *;
    repeat (first [assumption | constructor]).
Qed.

Lemma str_split_whole s sep :
  Forall (fun c => c <> sep) (list_ascii_of_string s) -> str_split s sep = [s].
Proof.
  induction s as [| c s IH]; [reflexivity |].
  cbn [list_ascii_of_string str_split]. intros Hall.
  apply Forall_cons in Hall as [Hc Hs].
  destruct (Ascii.eqb_spec c sep) as [| _]; [contradiction |].
  rewrite (IH Hs). reflexivity.
Qed.

Lemma prefix_chars (P : ascii -> Prop) p s :
  String.prefix p s = true ->
  Forall P (list_ascii_of_string s) -> Forall P (list_ascii_of_string p).
Proof.
  revert s. induction p as [| a p IH]; intros s Hp Hall; [constructor |].
  destruct s as [| b s]; [discriminate |].
  cbn [String.prefix] in Hp. destruct (ascii_dec a b) as [-> |]; [| discriminate].
  cbn [list_ascii_of_string] in *. apply Forall_cons in Hall as [Hb Hs].
  constructor; [exact Hb | exact (IH s Hp Hs)].
Qed.

Lemma str_in_chars (P : ascii -> Prop) sub s :
  str_in sub s = true ->
  Forall P (list_ascii_of_string s) -> Forall P (list_ascii_of_string sub).
Proof.
  induction s as [| c s IH]; cbn [str_in]; intros Hin Hall.
  - rewrite orb_false_r in Hin. exact (prefix_chars P sub EmptyString Hin Hall).
  - apply orb_true_iff in Hin as [Hp | Hin].
    + exact (prefix_chars P sub _ Hp Hall).
    + cbn [list_ascii_of_string] in Hall. apply Forall_cons in Hall as [_ Hs]. auto.
Qed.

(** A name without slash is left as it is by the cleaning. *)
Lemma clean_domain_plain s :
  Forall (fun c => c <> "/"%char) (list_ascii_of_string s) -> clean_domain s = s.
Proof.
  intros Hplain. unfold clean_domain.
  assert (Hno : forall sub, In "/"%char (list_ascii_of_string sub) -> str_in sub s = false).
  { intros sub Hslash. destruct (str_in sub s) eqn:Hin; [| reflexivity].
    pose proof (str_in_chars _ sub s Hin Hplain) as Hsub.
    rewrite List.Forall_forall in Hsub. exfalso. exact (Hsub _ Hslash eq_refl). }
  rewrite (str_replace_absent s "http://" "") by (apply Hno; cbn; auto 10).
  rewrite (str_replace_absent s "https://" "") by (apply Hno; cbn; auto 10).
  rewrite (str_split_whole s "/" Hplain). reflexivity.
Qed.

(** X20: the cleaning of a typed domain gives a name without any slash,
    and cleaning it again changes nothing; but the name may be empty, as for
    a bare scheme. *)
Theorem clean_domain_no_slash typed :
  Forall (fun c => c <> "/"%char) (list_ascii_of_string (clean_domain typed)) /\
  clean_domain (clean_domain typed) = clean_domain typed /\
  clean_domain "https://" = EmptyString.
Proof.
  assert (Hplain : Forall (fun c => c <> "/"%char)
                     (list_ascii_of_string (clean_domain typed)))
    by apply str_split_head.
  split; [exact Hplain |]. split; [apply clean_domain_plain, Hplain | reflexivity].
Qed.
